(** * LitFusion: the dispatch and provisioning logic of [litfusion_api.py]

    A shallow embedding of the [LitFusion] class (a LitServe API wrapping
    diffusers pipelines) and the properties of its configuration loader,
    pipeline provisioner, request dispatcher and mode handlers.

    The Python object [self], the process environment, the hidden state of
    the external libraries and the log of the calls made to them are threaded
    through a state, exception and output monad [Prog]: a generator function
    is a [Prog] whose output is the sequence of the values it yields. *)

From Stdlib Require Import ZArith Lia Ascii String.
From stdpp Require Import base strings gmap list pretty.

Local Open Scope Z_scope.
Local Open Scope string_scope.
Local Open Scope list_scope.

(** ** Python values and built-ins *)

(** Opaque objects of the external libraries, known by identity only. *)
Record Image := MkImage { image_id : N }.
Record Pipe := MkPipe { pipe_id : N }.
Record Json := MkJson { json_id : N }.

(** The values that occur in a request mapping, as an attribute or as a
    default argument: [None], integers, strings and decoded images. *)
Inductive value :=
  | VNone
  | VInt (z : Z)
  | VStr (s : string)
  | VImage (i : Image).

Inductive exn :=
  | ValueError (msg : string)
  | InvalidLiteral (s : string)   (* ValueError: invalid literal for int() with base 10 *)
  | TypeError (op : string)
  | AttributeError (attr : string)
  | LibraryError (code : N).      (* anything raised inside an external library *)

Module PyInt.
(** CPython's [int(s)] for a [str], in base 10, as CPython 3.11 computes it
    (Unicode 14.0, the default limit of 4300 digits). A string holds the
    UTF-8 bytes of the text; a byte that does not decode stands for itself
    as a lone surrogate, as in [os.environ]. No property below rests on this
    parser: the theorems are stated over the interpreter's own [int], and
    this one is the interpreter of the concrete worlds only. *)

(** *** The text of a string: its code points *)

Definition continuation (b : N) : bool := ((128 <=? b) && (b <=? 191))%N.

(** The lead byte [b] and the byte [b1] after it open a sequence of three:
    no overlong form, no surrogate. *)
Definition opens_three (b b1 : N) : bool :=
  ((b =? 224) && (160 <=? b1) && (b1 <=? 191) ||
   (225 <=? b) && (b <=? 239) && negb (b =? 237) && continuation b1 ||
   (b =? 237) && (128 <=? b1) && (b1 <=? 159))%N.

(** ... and of four: no overlong form, nothing above U+10FFFF. *)
Definition opens_four (b b1 : N) : bool :=
  ((b =? 240) && (144 <=? b1) && (b1 <=? 191) ||
   (241 <=? b) && (b <=? 243) && continuation b1 ||
   (b =? 244) && (128 <=? b1) && (b1 <=? 143))%N.

(** The lone surrogate that [surrogateescape] puts for an undecodable
    byte. *)
Definition escaped (b : N) : N := (56320 + b)%N.

Fixpoint decode (bs : list N) : list N :=
  match bs with
  | [] => []
  | b :: t0 =>
      if (b <? 128)%N then b :: decode t0
      else
        match t0 with
        | b1 :: t1 =>
            if ((194 <=? b) && (b <=? 223))%N && continuation b1
            then ((b - 192) * 64 + (b1 - 128))%N :: decode t1
            else
              match t1 with
              | b2 :: t2 =>
                  if opens_three b b1 && continuation b2
                  then ((b - 224) * 4096 + (b1 - 128) * 64 + (b2 - 128))%N
                         :: decode t2
                  else
                    match t2 with
                    | b3 :: t3 =>
                        if opens_four b b1 && continuation b2 && continuation b3
                        then ((b - 240) * 262144 + (b1 - 128) * 4096
                              + (b2 - 128) * 64 + (b3 - 128))%N :: decode t3
                        else escaped b :: decode t0
                    | [] => escaped b :: decode t0
                    end
              | [] => escaped b :: decode t0
              end
        | [] => escaped b :: decode t0
        end
  end.

(** *** [_PyUnicode_TransformDecimalAndSpaceToASCII] *)

(** [Py_UNICODE_ISSPACE] from U+007F on. *)
Definition is_unicode_space (c : N) : bool :=
  ((c =? 133) || (c =? 160) || (c =? 5760) ||
   (8192 <=? c) && (c <=? 8202) ||
   (c =? 8232) || (c =? 8233) || (c =? 8239) || (c =? 8287) ||
   (c =? 12288))%N.

(** The zeros of the decimal digits of Unicode 14.0: each is followed by its
    one to nine. *)
Definition decimal_zeros : list N :=
  [48; 1632; 1776; 1984; 2406; 2534; 2662; 2790;
   2918; 3046; 3174; 3302; 3430; 3558; 3664; 3792;
   3872; 4160; 4240; 6112; 6160; 6470; 6608; 6784;
   6800; 6992; 7088; 7232; 7248; 42528; 43216; 43264;
   43472; 43504; 43600; 44016; 65296; 66720; 68912; 69734;
   69872; 69942; 70096; 70384; 70736; 70864; 71248; 71360;
   71472; 71904; 72016; 72784; 73040; 73120; 92768; 92864;
   93008; 120782; 120792; 120802; 120812; 120822; 123200; 123632;
   125264; 130032]%N.

(** [Py_UNICODE_TODECIMAL]. *)
Definition decimal_of (c : N) : option N :=
  (fun zero => c - zero)%N <$>
    List.find (fun zero => (zero <=? c) && (c <=? zero + 9))%N decimal_zeros.

(** Code points below 127 stand as they are, a space becomes [" "], a
    decimal digit its ASCII digit; at anything else the text is cut after a
    ["?"]. *)
Fixpoint to_ascii (cs : list N) : list N :=
  match cs with
  | [] => []
  | c :: cs' =>
      if (c <? 127)%N then c :: to_ascii cs'
      else if is_unicode_space c then 32%N :: to_ascii cs'
      else match decimal_of c with
           | Some d => (48 + d)%N :: to_ascii cs'
           | None => [63%N]
           end
  end.

(** *** [PyLong_FromString] *)

(** [Py_ISSPACE]. *)
Definition is_space (c : N) : bool :=
  ((9 <=? c) && (c <=? 13) || (c =? 32))%N.

Definition digit_of (c : N) : option Z :=
  if ((48 <=? c) && (c <=? 57))%N then Some (Z.of_N c - 48) else None.

Fixpoint lstrip (cs : list N) : list N :=
  match cs with
  | c :: cs' => if is_space c then lstrip cs' else cs
  | [] => []
  end.

(** The run of digits and single underscores at the head of [cs]: its
    value, the number of its digits and what follows it. [underscore] tells
    whether the previous character was one: no two in a row, none at the
    end of the run. *)
Fixpoint scan (acc : Z) (count : nat) (underscore : bool) (cs : list N)
  : option (Z * nat * list N) :=
  match cs with
  | c :: cs' =>
      if (c =? 95)%N
      then (if underscore then None else scan acc count true cs')
      else match digit_of c with
           | Some d => scan (acc * 10 + d) (S count) false cs'
           | None => if underscore then None else Some (acc, count, cs)
           end
  | [] => if underscore then None else Some (acc, count, cs)
  end.

Definition max_str_digits : nat := 4300.

Definition exceeds_limit (count : nat) : exn :=
  ValueError ("Exceeds the limit (4300 digits) for integer string conversion: value has "
              +:+ pretty count
              +:+ " digits; use sys.set_int_max_str_digits() to increase the limit").

(** [None] is the syntax error. The limit is tested when the run of digits
    ends, before what follows the run is looked at. *)
Definition from_string (cs : list N) : option (exn + Z) :=
  let cs := lstrip cs in
  let '(sign, cs) :=
    match cs with
    | c :: cs' =>
        if (c =? 45)%N then (-1, cs')
        else if (c =? 43)%N then (1, cs')
        else (1, cs)
    | [] => (1, cs)
    end in
  match cs with
  | c :: _ => if (c =? 95)%N then None else Some tt
  | [] => Some tt
  end ;;
  '(z, count, rest) ← scan 0 0 false cs;
  if (max_str_digits <? count)%nat then Some (inl (exceeds_limit count))
  else if (count =? 0)%nat then None
  else match lstrip rest with
       | [] => Some (inr (sign * z))
       | _ :: _ => None
       end.

Definition bytes (s : string) : list N :=
  Ascii.N_of_ascii <$> list_ascii_of_string s.

Definition of_string (s : string) : exn + Z :=
  match from_string (to_ascii (decode (bytes s))) with
  | Some r => r
  | None => inl (InvalidLiteral s)
  end.
End PyInt.

(** [bool(z)] for an [int]. *)
Definition py_bool (z : Z) : bool := negb (z =? 0)%Z.

(** [min(a, b)] of two values: only two [int]s occur ordered here (a [str]
    or [None] against the [int] bound raises). *)
Definition py_min (a b : value) : exn + Z :=
  match a, b with
  | VInt x, VInt y => inr (if (y <? x)%Z then y else x)
  | _, _ => inl (TypeError "min")
  end.

(** [a == b] against a string literal. *)
Definition py_eq_str (a : value) (lit : string) : bool :=
  match a with
  | VStr s => bool_decide (s = lit)
  | _ => false
  end.

(** Truthiness of an attribute that holds [None] or a [bool]. *)
Definition truthy (b : option bool) : bool := default false b.

(** [d.get(key, dflt)] and [d.get(key)]. *)
Definition dict_get (d : gmap string value) (key : string) (dflt : value) : value :=
  default dflt (d !! key).

(** [os.getenv(name, dflt)]: the variable's string, or the default as given. *)
Definition os_getenv (environ : gmap string string) (name : string) (dflt : value) : value :=
  match environ !! name with
  | Some s => VStr s
  | None => dflt
  end.

(** The variables [setup] coerces, with their defaults, in reading order. *)
Definition coerced_variables : list (string * Z) :=
  [("MAX_N", 10); ("ENABLE_CPU_OFFLOAD", 0); ("ENABLE_VAE_SLICING", 0);
   ("ENABLE_VAE_TILING", 0); ("ENABLE_IMAGES_GENERATION", 1);
   ("ENABLE_IMAGE_EDITS", 1); ("ENABLE_IMAGE_VARIATIONS", 1)].

(** The Python interpreter the program runs on: what the built-in [int]
    makes of a [str], its value or the exception it raises. It is a
    function of the text alone; which texts it reads (digits and spaces
    beyond ASCII, the limit on the number of digits) is the interpreter's
    affair, so the program is modelled over any such function. *)
Class Interpreter := {
  int_of_str : string -> exn + Z;
}.

Section Coercion.
Context `{Interpreter}.

(** [int(v)]: an [int] is returned as it is, a [str] is handed to the
    interpreter. *)
Definition py_int (v : value) : exn + Z :=
  match v with
  | VInt z => inr z
  | VStr s => int_of_str s
  | _ => inl (TypeError "int")
  end.

(** [int(os.getenv(name, dflt))] and [bool(int(os.getenv(name, dflt)))] as
    functions of the environment. *)
Definition env_int (environ : gmap string string) (name : string) (dflt : Z) : exn + Z :=
  py_int (os_getenv environ name (VInt dflt)).

Definition env_flag (environ : gmap string string) (name : string) (dflt : Z) : exn + bool :=
  match env_int environ name dflt with
  | inl e => inl e
  | inr z => inr (py_bool z)
  end.

(** Every coerced variable reads as an integer: its value if it is set, its
    default if it is not. *)
Definition integers (env : gmap string string) : Prop :=
  Forall (fun v => exists z, env_int env v.1 v.2 = inr z) coerced_variables.

(** The same of the first [k] variables [setup] reads. *)
Definition reads (k : nat) (env : gmap string string) : Prop :=
  Forall (fun v => exists z, env_int env v.1 v.2 = inr z) (take k coerced_variables).
End Coercion.

(** [str(v)] as an f-string interpolates it. *)
Definition str_of_Z (z : Z) : string := pretty z.
Definition str_of_bool (b : bool) : string := if b then "True" else "False".

Definition str_of_value (v : value) : string :=
  match v with
  | VNone => "None"
  | VInt z => str_of_Z z
  | VStr s => s
  | VImage _ => "<PIL.Image.Image>"
  end.
Definition str_of_flag (b : option bool) : string :=
  match b with
  | None => "None"
  | Some b => str_of_bool b
  end.

(** ** The object, the external libraries and the process state *)

(** What [self.quality_presets] holds when it is not [None]: the empty
    mapping of the source, or a value [json.load] returned. *)
Inductive presets :=
  | EmptyDict
  | Loaded (j : Json).

(** The attributes of a [LitFusion] object. *)
Record LitFusion := MkLitFusion {
  pipeline : option Pipe;
  quality_presets : option presets;
  enable_image_variations : option bool;
  enable_image_edits : option bool;
  enable_images_generation : option bool;
  enable_vae_tiling : option bool;
  enable_vae_slicing : option bool;
  enable_cpu_offload : option bool;
  max_n : value;
  model_name : value;
}.

(** [__init__]: every attribute is [None]. *)
Definition init : LitFusion :=
  MkLitFusion None None None None None None None None VNone VNone.

Definition set_pipeline (x : option Pipe) (o : LitFusion) : LitFusion :=
  MkLitFusion x (quality_presets o) (enable_image_variations o) (enable_image_edits o)
    (enable_images_generation o) (enable_vae_tiling o) (enable_vae_slicing o)
    (enable_cpu_offload o) (max_n o) (model_name o).
Definition set_quality_presets (x : option presets) (o : LitFusion) : LitFusion :=
  MkLitFusion (pipeline o) x (enable_image_variations o) (enable_image_edits o)
    (enable_images_generation o) (enable_vae_tiling o) (enable_vae_slicing o)
    (enable_cpu_offload o) (max_n o) (model_name o).
Definition set_enable_image_variations (x : option bool) (o : LitFusion) : LitFusion :=
  MkLitFusion (pipeline o) (quality_presets o) x (enable_image_edits o)
    (enable_images_generation o) (enable_vae_tiling o) (enable_vae_slicing o)
    (enable_cpu_offload o) (max_n o) (model_name o).
Definition set_enable_image_edits (x : option bool) (o : LitFusion) : LitFusion :=
  MkLitFusion (pipeline o) (quality_presets o) (enable_image_variations o) x
    (enable_images_generation o) (enable_vae_tiling o) (enable_vae_slicing o)
    (enable_cpu_offload o) (max_n o) (model_name o).
Definition set_enable_images_generation (x : option bool) (o : LitFusion) : LitFusion :=
  MkLitFusion (pipeline o) (quality_presets o) (enable_image_variations o)
    (enable_image_edits o) x (enable_vae_tiling o) (enable_vae_slicing o)
    (enable_cpu_offload o) (max_n o) (model_name o).
Definition set_enable_vae_tiling (x : option bool) (o : LitFusion) : LitFusion :=
  MkLitFusion (pipeline o) (quality_presets o) (enable_image_variations o)
    (enable_image_edits o) (enable_images_generation o) x (enable_vae_slicing o)
    (enable_cpu_offload o) (max_n o) (model_name o).
Definition set_enable_vae_slicing (x : option bool) (o : LitFusion) : LitFusion :=
  MkLitFusion (pipeline o) (quality_presets o) (enable_image_variations o)
    (enable_image_edits o) (enable_images_generation o) (enable_vae_tiling o) x
    (enable_cpu_offload o) (max_n o) (model_name o).
Definition set_enable_cpu_offload (x : option bool) (o : LitFusion) : LitFusion :=
  MkLitFusion (pipeline o) (quality_presets o) (enable_image_variations o)
    (enable_image_edits o) (enable_images_generation o) (enable_vae_tiling o)
    (enable_vae_slicing o) x (max_n o) (model_name o).
Definition set_max_n (x : value) (o : LitFusion) : LitFusion :=
  MkLitFusion (pipeline o) (quality_presets o) (enable_image_variations o)
    (enable_image_edits o) (enable_images_generation o) (enable_vae_tiling o)
    (enable_vae_slicing o) (enable_cpu_offload o) x (model_name o).
Definition set_model_name (x : value) (o : LitFusion) : LitFusion :=
  MkLitFusion (pipeline o) (quality_presets o) (enable_image_variations o)
    (enable_image_edits o) (enable_images_generation o) (enable_vae_tiling o)
    (enable_vae_slicing o) (enable_cpu_offload o) (max_n o) x.

(** The coerced settings of an object, in reading order. *)
Definition resolved (o : LitFusion) :=
  (model_name o, max_n o, enable_cpu_offload o, enable_vae_slicing o,
   enable_vae_tiling o, enable_images_generation o, enable_image_edits o,
   enable_image_variations o).

(** The three [AutoPipelineFor...] classes of diffusers. *)
Inductive family :=
  | Text2Image
  | Image2Image
  | Inpainting.

Inductive pipe_option :=
  | SequentialCpuOffload   (* pipeline.enable_sequential_cpu_offload() *)
  | VaeSlicing             (* pipeline.vae.enable_slicing() *)
  | VaeTiling.             (* pipeline.vae.enable_tiling() *)

Abbreviation kwargs := (list (string * value)).

(** The calls that leave the program, in the order they are made. *)
Inductive event :=
  | PathExists (path : string)
  | JsonLoad (path : string)
  | FromPretrained (f : family) (model : value) (torch_dtype : string)
  | Enable (o : pipe_option) (p : Pipe)
  | To (p : Pipe) (target : string)
  | FromPipe (f : family) (p : option Pipe)
  | Call (p : Pipe) (args : kwargs)
  | Printed (line : string).

(** What the file system, diffusers and torch answer. [W] is their hidden
    state (files, downloaded weights, random generators): an answer depends
    on it and may change it, and every call but [os.path.exists] may raise. *)
Class Externals (W : Type) := {
  path_exists : string -> W -> bool;
  json_load : string -> W -> W * (exn + option Json);   (* [None]: the file holds null *)
  from_pretrained : family -> value -> string -> W -> W * (exn + Pipe);
  enable : pipe_option -> Pipe -> W -> W * (exn + unit);
  to : string -> Pipe -> W -> W * (exn + Pipe);
  from_pipe : family -> option Pipe -> W -> W * (exn + Pipe);
  pipe_call : Pipe -> kwargs -> W -> W * (exn + list Image);
}.

Record state (W : Type) := MkState {
  self : LitFusion;
  environ : gmap string string;
  world : W;
  trace : list event;
}.
Arguments MkState {W}.
Arguments self {W}.
Arguments environ {W}.
Arguments world {W}.
Arguments trace {W}.

(** ** Programs: state, exceptions and yielded values *)

Record out (W Y A : Type) := Out {
  after : state W;
  yielded : list Y;
  result : exn + A;
}.
Arguments Out {W Y A}.
Arguments after {W Y A}.
Arguments yielded {W Y A}.
Arguments result {W Y A}.

Definition Prog (W Y A : Type) : Type := state W -> out W Y A.

Section Monad.
Context {W Y : Type}.

Definition ret {A} (a : A) : Prog W Y A := fun st => Out st [] (inr a).

Definition raise {A} (e : exn) : Prog W Y A := fun st => Out st [] (inl e).

Definition bind {A B} (c : Prog W Y A) (k : A -> Prog W Y B) : Prog W Y B :=
  fun st =>
    let o := c st in
    match result o with
    | inl e => Out (after o) (yielded o) (inl e)
    | inr a =>
        let o' := k a (after o) in
        Out (after o') (yielded o ++ yielded o') (result o')
    end.

Definition lift {A} (r : exn + A) : Prog W Y A :=
  fun st => Out st [] r.

Definition yield (y : Y) : Prog W Y unit := fun st => Out st [y] (inr tt).

(** Reading an attribute of [self], and assigning one. *)
Definition attr {A} (field : LitFusion -> A) : Prog W Y A :=
  fun st => Out st [] (inr (field (self st))).

Definition assign (update : LitFusion -> LitFusion) : Prog W Y unit :=
  fun st => Out (MkState (update (self st)) (environ st) (world st) (trace st)) [] (inr tt).

Definition getenv (name : string) (dflt : value) : Prog W Y value :=
  fun st => Out st [] (inr (os_getenv (environ st) name dflt)).

(** A call into a library: logged, answered by the world. *)
Definition external {A} (ev : event) (answer : W -> W * (exn + A)) : Prog W Y A :=
  fun st =>
    let wr := answer (world st) in
    Out (MkState (self st) (environ st) (fst wr) (trace st ++ [ev])) [] (snd wr).

Definition print (line : string) : Prog W Y unit :=
  fun st => Out (MkState (self st) (environ st) (world st) (trace st ++ [Printed line])) [] (inr tt).

(** [obj.method] on an attribute that may still be [None]. *)
Definition deref (p : option Pipe) (method : string) : Prog W Y Pipe :=
  match p with
  | Some p => ret p
  | None => raise (AttributeError method)
  end.

Definition when (b : bool) (c : Prog W Y unit) : Prog W Y unit :=
  if b then c else ret tt.
End Monad.

Notation "x <- c ;; k" := (bind c (fun x => k))
  (at level 100, c at next level, right associativity).
Notation "c ;;; k" := (bind c (fun _ => k))
  (at level 100, right associativity).

Section Loops.
Context {W Y : Type}.

(** [for _ in range(k): body] *)
Fixpoint for_range (k : nat) (body : Prog W Y unit) : Prog W Y unit :=
  match k with
  | O => ret tt
  | S k' => body ;;; for_range k' body
  end.

(** [for x in xs: body(x)] *)
Fixpoint for_each {X} (xs : list X) (body : X -> Prog W Y unit) : Prog W Y unit :=
  match xs with
  | [] => ret tt
  | x :: xs' => body x ;;; for_each xs' body
  end.
End Loops.

(** ** Reading a trace *)

(** The constructions of a pipeline from pretrained weights (the calls of
    [from_pretrained], with the family and the model asked for) and the
    pipeline invocations (with the view called and its keyword arguments),
    in the order they happened. *)
Definition constructions (tr : list event) : list (family * value) :=
  omap (fun ev => match ev with
                  | FromPretrained f model _ => Some (f, model)
                  | _ => None
                  end) tr.

Definition invocations (tr : list event) : list (Pipe * kwargs) :=
  omap (fun ev => match ev with
                  | Call p args => Some (p, args)
                  | _ => None
                  end) tr.

(** The number of pipeline invocations a run has added to the trace. *)
Definition invoked {W Y A} (st : state W) (out : out W Y A) : nat :=
  (length (invocations (trace (after out))) - length (invocations (trace st)))%nat.

(** The spec's clamping of [n] to the interval [lo, hi]. *)
Definition clamp (lo hi n : Z) : Z := Z.max lo (Z.min n hi).

(** The pipeline handle of the object, and what has been constructed so far. *)
Definition handle {W} (st : state W) : option Pipe := pipeline (self st).
Definition constructed {W} (st : state W) : list (family * value) :=
  constructions (trace st).

(** [keeps f c]: running [c] leaves the observation [f] of the state as it
    was, whether [c] returns or raises. *)
Definition keeps {W Y X A} (f : state W -> X) (c : Prog W Y A) : Prop :=
  forall st, f (after (c st)) = f st.

(** ** The methods of [LitFusion] *)

(** What [predict] yields: the sentinel string, or the generator object that
    calling a handler creates. Creating it runs none of the handler's body:
    the generator is the handler's program, run only when it is iterated. *)
Inductive item (W : Type) :=
  | Sentinel (s : string)
  | Generator (g : Prog W Image unit).
Arguments Sentinel {W}.
Arguments Generator {W}.

Section Methods.
Context `{Interpreter} `{Externals W}.

(** [int(os.getenv(name, dflt))] and [bool(int(os.getenv(name, dflt)))] *)
Definition getenv_int {Y} (name : string) (dflt : Z) : Prog W Y Z :=
  v <- getenv name (VInt dflt) ;;
  lift (py_int v).

Definition getenv_flag {Y} (name : string) (dflt : Z) : Prog W Y bool :=
  z <- getenv_int name dflt ;;
  ret (py_bool z).

Definition config_path : string := "config.json".

Definition no_pipeline_enabled : string :=
  "No pipeline enabled. Please enable at least one of the following: images generation, image edits, image variations".

(** Lines 26-43 of [setup]: the environment variables, then [config.json]. *)
Definition load_configuration {Y} : Prog W Y unit :=
  model <- getenv "MODEL" (VStr "default-model") ;;
  assign (set_model_name model) ;;;
  n <- getenv_int "MAX_N" 10 ;;
  assign (set_max_n (VInt n)) ;;;
  b <- getenv_flag "ENABLE_CPU_OFFLOAD" 0 ;;
  assign (set_enable_cpu_offload (Some b)) ;;;
  b <- getenv_flag "ENABLE_VAE_SLICING" 0 ;;
  assign (set_enable_vae_slicing (Some b)) ;;;
  b <- getenv_flag "ENABLE_VAE_TILING" 0 ;;
  assign (set_enable_vae_tiling (Some b)) ;;;
  b <- getenv_flag "ENABLE_IMAGES_GENERATION" 1 ;;
  assign (set_enable_images_generation (Some b)) ;;;
  b <- getenv_flag "ENABLE_IMAGE_EDITS" 1 ;;
  assign (set_enable_image_edits (Some b)) ;;;
  b <- getenv_flag "ENABLE_IMAGE_VARIATIONS" 1 ;;
  assign (set_enable_image_variations (Some b)) ;;;
  found <- external (PathExists config_path) (fun w => (w, inr (path_exists config_path w))) ;;
  if found : bool
  then j <- external (JsonLoad config_path) (json_load config_path) ;;
       assign (set_quality_presets (Loaded <$> j))
  else assign (set_quality_presets (Some EmptyDict)).

(** Lines 46-54: the pipeline, by the first flag that is set. *)
Definition load_pipeline {Y} : Prog W Y unit :=
  print "Loading model pipeline..." ;;;
  generation <- attr enable_images_generation ;;
  edits <- attr enable_image_edits ;;
  variations <- attr enable_image_variations ;;
  model <- attr model_name ;;
  if truthy generation then
    p <- external (FromPretrained Text2Image model "bfloat16")
                  (from_pretrained Text2Image model "bfloat16") ;;
    assign (set_pipeline (Some p))
  else if truthy edits then
    p <- external (FromPretrained Inpainting model "bfloat16")
                  (from_pretrained Inpainting model "bfloat16") ;;
    assign (set_pipeline (Some p))
  else if truthy variations then
    p <- external (FromPretrained Image2Image model "bfloat16")
                  (from_pretrained Image2Image model "bfloat16") ;;
    assign (set_pipeline (Some p))
  else raise (ValueError no_pipeline_enabled).

(** Lines 57-65: the memory options, then precision and device. *)
Definition apply_settings {Y} : Prog W Y unit :=
  offload <- attr enable_cpu_offload ;;
  when (truthy offload)
    (o <- attr pipeline ;;
     p <- deref o "enable_sequential_cpu_offload" ;;
     external (Enable SequentialCpuOffload p) (enable SequentialCpuOffload p)) ;;;
  slicing <- attr enable_vae_slicing ;;
  when (truthy slicing)
    (o <- attr pipeline ;;
     p <- deref o "vae" ;;
     external (Enable VaeSlicing p) (enable VaeSlicing p)) ;;;
  tiling <- attr enable_vae_tiling ;;
  when (truthy tiling)
    (o <- attr pipeline ;;
     p <- deref o "vae" ;;
     external (Enable VaeTiling p) (enable VaeTiling p)) ;;;
  o <- attr pipeline ;;
  p <- deref o "to" ;;
  p16 <- external (To p "float16") (to "float16" p) ;;
  _ <- external (To p16 "cuda") (to "cuda" p16) ;;
  ret tt.

(** Lines 67-75: the summary. *)
Definition print_summary {Y} : Prog W Y unit :=
  o <- attr id ;;
  print "Model setup complete with:" ;;;
  print ("Model: " +:+ str_of_value (model_name o)) ;;;
  print ("Max value for n: " +:+ str_of_value (max_n o)) ;;;
  print ("CPU Offload Enabled: " +:+ str_of_flag (enable_cpu_offload o)) ;;;
  print ("VAE Slicing Enabled: " +:+ str_of_flag (enable_vae_slicing o)) ;;;
  print ("VAE Tiling Enabled: " +:+ str_of_flag (enable_vae_tiling o)) ;;;
  print ("Images Generation Enabled: " +:+ str_of_flag (enable_images_generation o)) ;;;
  print ("Image Edits Enabled: " +:+ str_of_flag (enable_image_edits o)) ;;;
  print ("Image Variations Enabled: " +:+ str_of_flag (enable_image_variations o)).

(** [setup(self, device)]; it yields nothing and never reads [device]. *)
Definition setup (device : value) : Prog W Empty_set unit :=
  load_configuration ;;;
  load_pipeline ;;;
  apply_settings ;;;
  print_summary.

Definition generate_images (request : gmap string value) : Prog W Image unit :=
  o <- attr pipeline ;;
  gen_pipe <- external (FromPipe Text2Image o) (from_pipe Text2Image o) ;;
  bound <- attr max_n ;;
  k <- lift (py_min (dict_get request "n" (VInt 1)) bound) ;;
  for_range (Z.to_nat k)
    (let prompt := dict_get request "prompt" (VStr "A beautiful landscape") in
     let args := [("prompt", prompt)] in
     images <- external (Call gen_pipe args) (pipe_call gen_pipe args) ;;
     for_each images yield).

Definition edit_images (request : gmap string value) : Prog W Image unit :=
  o <- attr pipeline ;;
  edit_pipe <- external (FromPipe Inpainting o) (from_pipe Inpainting o) ;;
  bound <- attr max_n ;;
  k <- lift (py_min (dict_get request "n" (VInt 1)) bound) ;;
  for_range (Z.to_nat k)
    (let prompt := dict_get request "prompt" (VStr "Edit the image to look more vibrant") in
     let init_image := dict_get request "image" VNone in
     let mask_image := dict_get request "mask" VNone in
     let args := [("prompt", prompt); ("image", init_image); ("mask_image", mask_image)] in
     images <- external (Call edit_pipe args) (pipe_call edit_pipe args) ;;
     for_each images yield).

Definition generate_variations (request : gmap string value) : Prog W Image unit :=
  o <- attr pipeline ;;
  var_pipe <- external (FromPipe Image2Image o) (from_pipe Image2Image o) ;;
  bound <- attr max_n ;;
  k <- lift (py_min (dict_get request "n" (VInt 1)) bound) ;;
  for_range (Z.to_nat k)
    (let prompt := dict_get request "prompt" (VStr "Generate variations") in
     let init_image := dict_get request "image" VNone in
     let args := [("prompt", prompt); ("image", init_image)] in
     images <- external (Call var_pipe args) (pipe_call var_pipe args) ;;
     for_each images yield).

Definition predict (request : gmap string value) : Prog W (item W) unit :=
  let request_type := dict_get request "request_type" VNone in
  generation <- attr enable_images_generation ;;
  edits <- attr enable_image_edits ;;
  variations <- attr enable_image_variations ;;
  if py_eq_str request_type "generation" && truthy generation then
    yield (Generator (generate_images request))
  else if py_eq_str request_type "edit" && truthy edits then
    yield (Generator (edit_images request))
  else if py_eq_str request_type "variation" && truthy variations then
    yield (Generator (generate_variations request))
  else
    yield (Sentinel "Unknown or disabled request type").

(** The three handlers side by side: the pipeline family each derives its
    view for, what selects it in [predict], and the keyword arguments it
    passes to every call. *)
Inductive mode :=
  | Generation
  | Edit
  | Variation.

Definition handler (m : mode) : gmap string value -> Prog W Image unit :=
  match m with
  | Generation => generate_images
  | Edit => edit_images
  | Variation => generate_variations
  end.

Definition family_of (m : mode) : family :=
  match m with
  | Generation => Text2Image
  | Edit => Inpainting
  | Variation => Image2Image
  end.

(** The request type that selects a mode, and the flag that enables it. *)
Definition type_name (m : mode) : string :=
  match m with
  | Generation => "generation"
  | Edit => "edit"
  | Variation => "variation"
  end.

Definition enabled (m : mode) (o : LitFusion) : option bool :=
  match m with
  | Generation => enable_images_generation o
  | Edit => enable_image_edits o
  | Variation => enable_image_variations o
  end.

Definition arguments (m : mode) (request : gmap string value) : kwargs :=
  match m with
  | Generation =>
      [("prompt", dict_get request "prompt" (VStr "A beautiful landscape"))]
  | Edit =>
      [("prompt", dict_get request "prompt" (VStr "Edit the image to look more vibrant"));
       ("image", dict_get request "image" VNone);
       ("mask_image", dict_get request "mask" VNone)]
  | Variation =>
      [("prompt", dict_get request "prompt" (VStr "Generate variations"));
       ("image", dict_get request "image" VNone)]
  end.

(** The body of a handler's loop: one pipeline call, its images yielded. *)
Definition round (p : Pipe) (args : kwargs) : Prog W Image unit :=
  images <- external (Call p args) (pipe_call p args) ;;
  for_each images yield.

(** The state after one more pipeline call, and the state a handler's loop
    starts from once [from_pipe] has answered. *)
Definition called (p : Pipe) (args : kwargs) (st : state W) (w : W) : state W :=
  MkState (self st) (environ st) w (trace st ++ [Call p args]).

Definition derived (m : mode) (st : state W) (w : W) : state W :=
  MkState (self st) (environ st) w (trace st ++ [FromPipe (family_of m) (handle st)]).

Definition sentinel : item W := Sentinel "Unknown or disabled request type".
End Methods.

(** ** The interpreter of the concrete worlds

    CPython 3.11 with its default settings. *)

#[export] Instance cpython : Interpreter := {|
  int_of_str := PyInt.of_string;
|}.

(** ** A concrete world

    No [config.json]; every model loads; pipelines and images are numbered
    by a counter; a pipeline call that is handed [None] for its [image]
    raises, as the image-to-image and inpainting pipelines do. *)
Definition missing_image (args : kwargs) : bool :=
  existsb (fun kv => match kv with
                     | (key, VNone) => bool_decide (key = "image")
                     | _ => false
                     end) args.

#[export] Instance studio : Externals N := {|
  path_exists _ _ := false;
  json_load _ w := (w, inl (LibraryError 2));
  from_pretrained _ _ _ w := (N.succ w, inr (MkPipe w));
  enable _ _ w := (w, inr tt);
  to _ p w := (w, inr p);
  from_pipe _ o w :=
    match o with
    | Some _ => (N.succ w, inr (MkPipe w))
    | None => (w, inl (LibraryError 1))
    end;
  pipe_call _ args w :=
    if missing_image args then (w, inl (LibraryError 3))
    else (N.succ w, inr [MkImage w]);
|}.

Definition boot (env : gmap string string) : state N := MkState init env 0%N [].

Definition request_of (fields : list (string * value)) : gmap string value :=
  list_to_map fields.

(** The object after [setup] in the default environment. *)
Definition ready : state N := after (setup VNone (boot ∅)).

(** ** A world with faults

    Whether [config.json] is there, whether it parses and whether the model
    loads are read off the world; everything else answers. *)
Record site := MkSite {
  has_config : bool;
  config_parses : bool;
  model_loads : bool;
}.

#[export] Instance workshop : Externals site := {|
  path_exists path w := has_config w && bool_decide (path = "config.json");
  json_load _ w :=
    if config_parses w then (w, inr (Some (MkJson 7))) else (w, inl (LibraryError 4));
  from_pretrained _ _ _ w :=
    if model_loads w then (w, inr (MkPipe 0)) else (w, inl (LibraryError 5));
  enable _ _ w := (w, inr tt);
  to _ p w := (w, inr p);
  from_pipe _ o w :=
    match o with
    | Some p => (w, inr p)
    | None => (w, inl (LibraryError 1))
    end;
  pipe_call _ _ w := (w, inr [MkImage 0]);
|}.

Definition start (w : site) : state site := MkState init ∅ w [].

(** ** A world whose [config.json] holds [null]

    [json.load] answers [None] for it; the model loads and the other calls
    answer. *)
Inductive desk := Desk.

#[export] Instance null_config : Externals desk := {|
  path_exists path w := bool_decide (path = "config.json");
  json_load _ w := (w, inr None);
  from_pretrained _ _ _ w := (w, inr (MkPipe 0));
  enable _ _ w := (w, inr tt);
  to _ p w := (w, inr p);
  from_pipe _ o w :=
    match o with
    | Some p => (w, inr p)
    | None => (w, inl (LibraryError 1))
    end;
  pipe_call _ _ w := (w, inr [MkImage 0]);
|}.

Definition open_desk : state desk := MkState init ∅ Desk [].

(** ** What [setup] leaves in the trace *)

(** The memory options [setup] applies to the pipeline, in its order. *)
Definition options (offload slicing tiling : bool) (p : Pipe) : list event :=
  (if offload then [Enable SequentialCpuOffload p] else []) ++
  (if slicing then [Enable VaeSlicing p] else []) ++
  (if tiling then [Enable VaeTiling p] else []).

(** The lines of the summary for an object. *)
Definition summary (o : LitFusion) : list event :=
  [Printed "Model setup complete with:";
   Printed ("Model: " +:+ str_of_value (model_name o));
   Printed ("Max value for n: " +:+ str_of_value (max_n o));
   Printed ("CPU Offload Enabled: " +:+ str_of_flag (enable_cpu_offload o));
   Printed ("VAE Slicing Enabled: " +:+ str_of_flag (enable_vae_slicing o));
   Printed ("VAE Tiling Enabled: " +:+ str_of_flag (enable_vae_tiling o));
   Printed ("Images Generation Enabled: " +:+ str_of_flag (enable_images_generation o));
   Printed ("Image Edits Enabled: " +:+ str_of_flag (enable_image_edits o));
   Printed ("Image Variations Enabled: " +:+ str_of_flag (enable_image_variations o))].

(** ** How programs run *)

Section Running.
Context {W Y : Type}.
Implicit Types st : state W.

Lemma bind_ok {A B} (c : Prog W Y A) (k : A -> Prog W Y B) st a :
  result (c st) = inr a ->
  bind c k st =
    Out (after (k a (after (c st))))
        (yielded (c st) ++ yielded (k a (after (c st))))
        (result (k a (after (c st)))).
Proof. intros Hc. unfold bind. now rewrite Hc. Qed.

Lemma bind_raised {A B} (c : Prog W Y A) (k : A -> Prog W Y B) st e :
  result (c st) = inl e ->
  bind c k st = Out (after (c st)) (yielded (c st)) (inl e).
Proof. intros Hc. unfold bind. now rewrite Hc. Qed.

Lemma after_bind_ok {A B} (c : Prog W Y A) (k : A -> Prog W Y B) st a :
  result (c st) = inr a -> after (bind c k st) = after (k a (after (c st))).
Proof. intros Hc. now rewrite (bind_ok c k st a Hc). Qed.

Lemma result_bind_ok {A B} (c : Prog W Y A) (k : A -> Prog W Y B) st a :
  result (c st) = inr a -> result (bind c k st) = result (k a (after (c st))).
Proof. intros Hc. now rewrite (bind_ok c k st a Hc). Qed.

(** A step that yields nothing hands its state to what follows. *)
Lemma bind_silent {A B} (c : Prog W Y A) (k : A -> Prog W Y B) st st' r :
  c st = Out st' [] r ->
  bind c k st = match r with
                | inl e => Out st' [] (inl e)
                | inr a => k a st'
                end.
Proof.
  intros Hc. unfold bind. rewrite Hc. simpl.
  destruct r as [e|a]; [reflexivity|]. now destruct (k a st').
Qed.

Section Keeps.
Context {X : Type} (f : state W -> X).

Lemma keeps_ret {A} (a : A) : keeps (Y:=Y) f (ret a).
Proof. now intros st. Qed.

Lemma keeps_raise {A} e : keeps (Y:=Y) f (raise (A:=A) e).
Proof. now intros st. Qed.

Lemma keeps_lift {A} (r : exn + A) : keeps (Y:=Y) f (lift r).
Proof. now intros st. Qed.

Lemma keeps_yield y : keeps (Y:=Y) f (yield y).
Proof. now intros st. Qed.

Lemma keeps_attr {A} (field : LitFusion -> A) : keeps (Y:=Y) f (attr field).
Proof. now intros st. Qed.

Lemma keeps_getenv name dflt : keeps (Y:=Y) f (getenv name dflt).
Proof. now intros st. Qed.

Lemma keeps_bind {A B} (c : Prog W Y A) (k : A -> Prog W Y B) :
  keeps f c -> (forall a, keeps (Y:=Y) f (k a)) -> keeps (Y:=Y) f (bind c k).
Proof.
  intros Hc Hk st. unfold bind.
  destruct (result (c st)) as [e|a]; simpl; [apply Hc|].
  now rewrite Hk, Hc.
Qed.

(** What follows a step cannot disturb an observation it keeps. *)
Lemma keeps_tail {A B} (c : Prog W Y A) (k : A -> Prog W Y B) st :
  (forall a, keeps (Y:=Y) f (k a)) -> f (after (bind c k st)) = f (after (c st)).
Proof.
  intros Hk. unfold bind.
  destruct (result (c st)) as [e|a]; simpl; [reflexivity | apply Hk].
Qed.

Lemma keeps_when b (c : Prog W Y unit) : keeps f c -> keeps (Y:=Y) f (when b c).
Proof. destruct b; [easy | intros _; apply keeps_ret]. Qed.

Lemma keeps_deref o method : keeps (Y:=Y) f (deref o method).
Proof. destruct o; [apply keeps_ret | apply keeps_raise]. Qed.

Lemma keeps_for_each {A} (xs : list A) (body : A -> Prog W Y unit) :
  (forall x, keeps (Y:=Y) f (body x)) -> keeps (Y:=Y) f (for_each xs body).
Proof.
  intros Hb. induction xs as [|x xs IH]; [apply keeps_ret|].
  simpl. apply keeps_bind; [apply Hb | intros _; apply IH].
Qed.

Lemma keeps_for_range k (body : Prog W Y unit) :
  keeps f body -> keeps (Y:=Y) f (for_range k body).
Proof.
  intros Hb. induction k as [|k IH]; [apply keeps_ret|].
  simpl. apply keeps_bind; [apply Hb | intros _; apply IH].
Qed.

(** The steps that change the state keep an observation that their change
    does not reach. *)
Lemma keeps_external {A} ev (answer : W -> W * (exn + A)) :
  (forall o env w w' tr, f (MkState o env w' (tr ++ [ev])) = f (MkState o env w tr)) ->
  keeps (Y:=Y) f (external ev answer).
Proof. intros Hf [o env w tr]. apply Hf. Qed.

Lemma keeps_print line :
  (forall o env w tr, f (MkState o env w (tr ++ [Printed line])) = f (MkState o env w tr)) ->
  keeps (Y:=Y) f (print line).
Proof. intros Hf [o env w tr]. apply Hf. Qed.

Lemma keeps_assign update :
  (forall o env w tr, f (MkState (update o) env w tr) = f (MkState o env w tr)) ->
  keeps (Y:=Y) f (assign update).
Proof. intros Hf [o env w tr]. apply Hf. Qed.
End Keeps.
End Running.

Lemma constructions_snoc tr ev :
  constructions (tr ++ [ev]) =
    constructions tr ++ match ev with
                        | FromPretrained f model _ => [(f, model)]
                        | _ => []
                        end.
Proof. unfold constructions. rewrite omap_app. now destruct ev. Qed.

Lemma invocations_snoc tr ev :
  invocations (tr ++ [ev]) =
    invocations tr ++ match ev with
                      | Call p args => [(p, args)]
                      | _ => []
                      end.
Proof. unfold invocations. rewrite omap_app. now destruct ev. Qed.

(** Splits a program into its steps, leaving the side conditions of the
    steps that touch the state. *)
Ltac keeps_steps :=
  repeat first
    [ apply keeps_ret | apply keeps_raise | apply keeps_lift | apply keeps_yield
    | apply keeps_attr | apply keeps_getenv | apply keeps_deref
    | apply keeps_bind; [|intros ?]
    | apply keeps_when
    | apply keeps_for_each; intros ?
    | apply keeps_for_range
    | apply keeps_external; intros ? ? ? ? ?
    | apply keeps_print; intros ? ? ? ?
    | apply keeps_assign; intros ? ? ? ?
    | match goal with |- keeps _ (if ?b then _ else _) => destruct b end
    | match goal with |- keeps _ (let _ := _ in _) => cbv zeta end ].

Section Properties.
Context `{Interpreter} `{Externals W}.
Implicit Types st : state W.

(** *** Configuration *)

Lemma getenv_int_run {Y} name dflt st :
  getenv_int (Y:=Y) name dflt st = Out st [] (env_int (environ st) name dflt).
Proof. reflexivity. Qed.

Lemma getenv_flag_run {Y} name dflt st :
  getenv_flag (Y:=Y) name dflt st = Out st [] (env_flag (environ st) name dflt).
Proof.
  unfold getenv_flag. rewrite (bind_silent _ _ st _ _ (getenv_int_run name dflt st)).
  unfold env_flag. now destruct (env_int (environ st) name dflt).
Qed.

Lemma env_int_unset (env : gmap string string) name dflt :
  env !! name = None -> env_int env name dflt = inr dflt.
Proof. intros Hn. unfold env_int, os_getenv. now rewrite Hn. Qed.

Lemma env_int_set (env : gmap string string) name dflt s :
  env !! name = Some s -> env_int env name dflt = int_of_str s.
Proof. intros Hs. unfold env_int, os_getenv. now rewrite Hs. Qed.

(** Runs the next step of a program applied to a state, when that step
    yields nothing. *)
Ltac run_step :=
  match goal with
  | |- context [bind (getenv_flag ?n ?d) ?k ?st] =>
      rewrite (bind_silent _ k st _ _ (getenv_flag_run n d st))
  | |- context [bind (getenv_int ?n ?d) ?k ?st] =>
      rewrite (bind_silent _ k st _ _ (getenv_int_run n d st))
  | |- context [bind ?c ?k ?st] =>
      rewrite (bind_silent c k st _ _ eq_refl)
  end;
  cbv beta iota; cbn [environ self world trace].

Ltac run_all :=
  repeat first
    [ run_step
    | match goal with
      | |- context [match ?x with inl _ => _ | inr _ => _ end] => destruct x eqn:?
      | |- context [if ?b then _ else _] => destruct b eqn:?
      end ].

Lemma resolved_eq o model n offload slicing tiling g e v :
  resolved o = (model, n, offload, slicing, tiling, g, e, v) ->
  model_name o = model /\ max_n o = n /\ enable_cpu_offload o = offload /\
  enable_vae_slicing o = slicing /\ enable_vae_tiling o = tiling /\
  enable_images_generation o = g /\ enable_image_edits o = e /\
  enable_image_variations o = v.
Proof. unfold resolved. intros [= ? ? ? ? ? ? ? ?]. easy. Qed.

Lemma env_int_raised (env : gmap string string) name dflt e :
  env_int env name dflt = inl e ->
  exists s, env !! name = Some s /\ int_of_str s = inl e.
Proof.
  unfold env_int, os_getenv. destruct (env !! name) as [s|]; simpl; [|discriminate].
  intros Hs. now exists s.
Qed.

Lemma env_flag_raised (env : gmap string string) name dflt e :
  env_flag env name dflt = inl e -> env_int env name dflt = inl e.
Proof. unfold env_flag. destruct (env_int env name dflt); congruence. Qed.

Lemma env_flag_ok (env : gmap string string) name dflt b :
  env_flag env name dflt = inr b ->
  exists z, env_int env name dflt = inr z /\ b = py_bool z.
Proof.
  unfold env_flag. destruct (env_int env name dflt) as [e|z]; [discriminate|].
  intros [= <-]. now exists z.
Qed.


Lemma load_configuration_max_n {Y} st n :
  env_int (environ st) "MAX_N" 10 = inr n ->
  max_n (self (after (load_configuration (Y:=Y) st))) = VInt n.
Proof.
  intros Hn. unfold load_configuration. run_step. run_step. run_step.
  rewrite Hn. run_all; reflexivity.
Qed.

Lemma load_configuration_resolves {Y} st n offload slicing tiling g e v :
  let env := environ st in
  env_int env "MAX_N" 10 = inr n ->
  env_flag env "ENABLE_CPU_OFFLOAD" 0 = inr offload ->
  env_flag env "ENABLE_VAE_SLICING" 0 = inr slicing ->
  env_flag env "ENABLE_VAE_TILING" 0 = inr tiling ->
  env_flag env "ENABLE_IMAGES_GENERATION" 1 = inr g ->
  env_flag env "ENABLE_IMAGE_EDITS" 1 = inr e ->
  env_flag env "ENABLE_IMAGE_VARIATIONS" 1 = inr v ->
  resolved (self (after (load_configuration (Y:=Y) st))) =
    (os_getenv env "MODEL" (VStr "default-model"), VInt n, Some offload,
     Some slicing, Some tiling, Some g, Some e, Some v).
Proof.
  intros env Hn Ho Hs Ht Hg He Hv. subst env. unfold load_configuration.
  do 3 run_step. rewrite Hn. do 2 run_step. rewrite Ho. do 2 run_step.
  rewrite Hs. do 2 run_step. rewrite Ht. do 2 run_step. rewrite Hg.
  do 2 run_step. rewrite He. do 2 run_step. rewrite Hv. run_all; reflexivity.
Qed.


Lemma env_flag_read (env : gmap string string) name dflt z :
  env_int env name dflt = inr z -> env_flag env name dflt = inr (py_bool z).
Proof. intros Hz. unfold env_flag. now rewrite Hz. Qed.


Ltac read_so_far :=
  unfold reads, coerced_variables; cbn [take];
  repeat (apply Forall_cons; split; [eexists; cbn [fst snd]; eassumption|]);
  apply Forall_nil_2.

(** The first malformed value stops [load_configuration] where it is read:
    nothing outside the program has been called yet. *)
Lemma load_configuration_malformed {Y} st name dflt e :
  (name, dflt) ∈ coerced_variables ->
  env_int (environ st) name dflt = inl e ->
  let o := load_configuration (Y:=Y) st in
  exists name' dflt' s err,
    (name', dflt') ∈ coerced_variables /\ environ st !! name' = Some s /\
    int_of_str s = inl err /\
    result o = inl err /\
    world (after o) = world st /\ trace (after o) = trace st /\
    exists k, coerced_variables !! k = Some (name', dflt') /\ reads k (environ st).
Proof.
  intros Hin Hbad o. subst o. unfold load_configuration.
  do 3 run_step.
  repeat match goal with
    | |- context [match ?x with inl _ => _ | inr _ => _ end] =>
        destruct x as [err|?] eqn:?;
        [ try match goal with
              | Hr : env_flag _ _ _ = inl err |- _ => apply env_flag_raised in Hr
              end;
          repeat match goal with
            | Hf : env_flag _ _ _ = inr _ |- _ =>
                apply env_flag_ok in Hf; destruct Hf as (? & Hf & _)
            end;
          match goal with
          | Hr : env_int _ _ _ = inl err |- _ =>
              destruct (env_int_raised _ _ _ _ Hr) as (s & Hset & Hs);
              eexists _, _, s, err; cbn [after result];
              split;
                [|split; [exact Hset|];
                  split; [exact Hs|];
                  do 3 (split; [reflexivity|]);
                  first [ exists 0%nat; split; [reflexivity|read_so_far]
                        | exists 1%nat; split; [reflexivity|read_so_far]
                        | exists 2%nat; split; [reflexivity|read_so_far]
                        | exists 3%nat; split; [reflexivity|read_so_far]
                        | exists 4%nat; split; [reflexivity|read_so_far]
                        | exists 5%nat; split; [reflexivity|read_so_far]
                        | exists 6%nat; split; [reflexivity|read_so_far] ]];
              unfold coerced_variables; rewrite !elem_of_cons; auto 10
          end
        | do 2 run_step ]
    end.
  exfalso.
  repeat match goal with
    | Hf : env_flag _ _ _ = inr _ |- _ =>
        apply env_flag_ok in Hf; destruct Hf as (? & Hf & _)
    end.
  unfold coerced_variables in Hin.
  repeat (apply elem_of_cons in Hin; destruct Hin as [[= -> ->]|Hin]; [congruence|]).
  now apply elem_of_nil in Hin.
Qed.

(** *** Provisioning *)

Lemma load_configuration_keeps_handle {Y} : keeps (W:=W) (Y:=Y) handle load_configuration.
Proof.
  unfold load_configuration, getenv_flag, getenv_int. keeps_steps; reflexivity.
Qed.

Lemma load_configuration_keeps_constructed {Y} :
  keeps (W:=W) (Y:=Y) constructed load_configuration.
Proof.
  unfold load_configuration, getenv_flag, getenv_int.
  keeps_steps; unfold constructed; simpl; rewrite ?constructions_snoc, ?app_nil_r;
    reflexivity.
Qed.

Lemma apply_settings_keeps_self {Y} : keeps (W:=W) (Y:=Y) self apply_settings.
Proof. unfold apply_settings. keeps_steps; reflexivity. Qed.

Lemma apply_settings_keeps_constructed {Y} : keeps (W:=W) (Y:=Y) constructed apply_settings.
Proof.
  unfold apply_settings.
  keeps_steps; unfold constructed; simpl; rewrite ?constructions_snoc, ?app_nil_r;
    reflexivity.
Qed.

Lemma print_summary_keeps_self {Y} : keeps (W:=W) (Y:=Y) self print_summary.
Proof. unfold print_summary. keeps_steps; reflexivity. Qed.

Lemma print_summary_keeps_constructed {Y} : keeps (W:=W) (Y:=Y) constructed print_summary.
Proof.
  unfold print_summary.
  keeps_steps; unfold constructed; simpl; rewrite ?constructions_snoc, ?app_nil_r;
    reflexivity.
Qed.

(** The family [load_pipeline] asks for, given the three flags. *)
Lemma load_pipeline_constructs {Y} st (g e v : bool) :
  enable_images_generation (self st) = Some g ->
  enable_image_edits (self st) = Some e ->
  enable_image_variations (self st) = Some v ->
  g || e || v = true ->
  let fam := if g then Text2Image else if e then Inpainting else Image2Image in
  let o := load_pipeline (Y:=Y) st in
  constructed (after o) = constructed st ++ [(fam, model_name (self st))] /\
  forall w' p,
    from_pretrained fam (model_name (self st)) "bfloat16" (world st) = (w', inr p) ->
    handle (after o) = Some p.
Proof.
  intros Hg He Hv Hany. destruct st as [o env w tr]; simpl in *.
  unfold load_pipeline, bind, attr, print, external, assign, constructed, handle; simpl.
  rewrite Hg, He, Hv; simpl.
  destruct g; [|destruct e; [|destruct v; [|discriminate]]]; simpl;
    match goal with
    | |- context [from_pretrained ?f ?m ?d ?w] =>
        destruct (from_pretrained f m d w) as [w1 [err|p1]]
    end; simpl;
    rewrite !constructions_snoc, app_nil_r; simpl;
    (split; [reflexivity | intros w' p; congruence]).
Qed.

Lemma load_pipeline_none_enabled {Y} st :
  enable_images_generation (self st) = Some false ->
  enable_image_edits (self st) = Some false ->
  enable_image_variations (self st) = Some false ->
  let o := load_pipeline (Y:=Y) st in
  result o = inl (ValueError no_pipeline_enabled) /\
  self (after o) = self st /\ world (after o) = world st /\
  trace (after o) = trace st ++ [Printed "Loading model pipeline..."].
Proof.
  intros Hg He Hv. destruct st as [o env w tr]; simpl in *.
  unfold load_pipeline, bind, attr, print; simpl.
  rewrite Hg, He, Hv; simpl. easy.
Qed.

Lemma load_pipeline_keeps_resolved {Y} :
  keeps (W:=W) (Y:=Y) (fun st => resolved (self st)) load_pipeline.
Proof. unfold load_pipeline. keeps_steps; reflexivity. Qed.

(** What [setup] does after the configuration is loaded leaves the coerced
    settings alone. *)
Lemma setup_resolved device st :
  resolved (self (after (setup device st))) =
    resolved (self (after (load_configuration (Y:=Empty_set) st))).
Proof.
  unfold setup. apply (keeps_tail (fun st => resolved (self st))).
  intros _. apply keeps_bind; [apply load_pipeline_keeps_resolved|].
  intros _ st'. f_equal. revert st'.
  apply (keeps_bind self);
    [apply apply_settings_keeps_self | intros _; apply print_summary_keeps_self].
Qed.


(** C7. [setup] coerces the variables and checks nothing else: when each of
    them reads as an integer (what [int] makes of its value if it is set,
    its default if not), [max_n] is that integer, whatever its sign, and
    each flag is whether its integer is nonzero. A set value on which [int]
    fails (such as "true" or "abc") makes [setup] raise what [int] raised
    on the first such value in reading order (the variables before it read
    as integers), before anything outside the program is called and with
    the pipeline handle as it was: [setup] does not return. *)
Theorem setup_coerces (device : value) st :
  let env := environ st in
  let out := setup device st in
  (forall n offload slicing tiling g e v,
     env_int env "MAX_N" 10 = inr n ->
     env_int env "ENABLE_CPU_OFFLOAD" 0 = inr offload ->
     env_int env "ENABLE_VAE_SLICING" 0 = inr slicing ->
     env_int env "ENABLE_VAE_TILING" 0 = inr tiling ->
     env_int env "ENABLE_IMAGES_GENERATION" 1 = inr g ->
     env_int env "ENABLE_IMAGE_EDITS" 1 = inr e ->
     env_int env "ENABLE_IMAGE_VARIATIONS" 1 = inr v ->
     resolved (self (after out)) =
       (os_getenv env "MODEL" (VStr "default-model"), VInt n,
        Some (negb (offload =? 0)%Z), Some (negb (slicing =? 0)%Z),
        Some (negb (tiling =? 0)%Z), Some (negb (g =? 0)%Z),
        Some (negb (e =? 0)%Z), Some (negb (v =? 0)%Z))) /\
  (forall name dflt s err,
     (name, dflt) ∈ coerced_variables ->
     env !! name = Some s ->
     int_of_str s = inl err ->
     exists name' dflt' s' err',
       (name', dflt') ∈ coerced_variables /\ env !! name' = Some s' /\
       int_of_str s' = inl err' /\
       result out = inl err' /\
       trace (after out) = trace st /\ world (after out) = world st /\
       handle (after out) = handle st /\
       exists k, coerced_variables !! k = Some (name', dflt') /\ reads k env).
Proof.
  intros env out. split.
  - intros n offload slicing tiling g e v Hn Ho Hs Ht Hg He Hv.
    unfold out. rewrite setup_resolved.
    apply (load_configuration_resolves st n _ _ _ _ _ _ Hn);
      now apply env_flag_read.
  - intros name dflt s err Hin Hset Hbad.
    destruct (load_configuration_malformed (Y:=Empty_set) st name dflt err Hin)
      as (name' & dflt' & s' & err' & Hin' & Hset' & Hbad' & Hres & Hw & Htr & Hfirst).
    { fold env. now rewrite (env_int_set _ _ _ _ Hset). }
    exists name', dflt', s', err'. unfold out, setup.
    rewrite (bind_raised _ _ st _ Hres). cbn [after result].
    do 6 (split; [first [assumption | reflexivity]|]).
    split; [apply load_configuration_keeps_handle | exact Hfirst].
Qed.

(** C1. Once the configuration is loaded with at least one of the three
    mode flags set, [setup] constructs exactly one pipeline from the
    pretrained weights (it calls [from_pretrained] once, for the configured
    model): the text-to-image one if generation is enabled, otherwise the
    inpainting one if edits are enabled, otherwise the image-to-image one;
    and the handle [self.pipeline] is the pipeline that constructor
    returned. *)
Theorem setup_constructs_by_priority (device : value) st (g e v : bool) :
  let settings := after (load_configuration (Y:=Empty_set) st) in
  result (load_configuration (Y:=Empty_set) st) = inr tt ->
  enable_images_generation (self settings) = Some g ->
  enable_image_edits (self settings) = Some e ->
  enable_image_variations (self settings) = Some v ->
  g || e || v = true ->
  let fam := if g then Text2Image else if e then Inpainting else Image2Image in
  constructed (after (setup device st)) =
    constructed st ++ [(fam, model_name (self settings))] /\
  forall w' p,
    from_pretrained fam (model_name (self settings)) "bfloat16" (world settings) = (w', inr p) ->
    handle (after (setup device st)) = Some p.
Proof.
  intros settings Hcfg Hg He Hv Hany fam.
  destruct (load_pipeline_constructs (Y:=Empty_set) settings g e v Hg He Hv Hany)
    as [Hcons Hpipe].
  unfold setup. rewrite (after_bind_ok _ _ st tt Hcfg). fold settings. split.
  - rewrite (keeps_tail constructed).
    + rewrite Hcons. f_equal. apply load_configuration_keeps_constructed.
    + intros _. apply keeps_bind;
        [apply apply_settings_keeps_constructed
        | intros _; apply print_summary_keeps_constructed].
  - intros w' p Hp.
    rewrite (keeps_tail handle); [now apply (Hpipe w')|].
    intros _ st'. unfold handle. f_equal. revert st'.
    apply (keeps_bind self);
      [apply apply_settings_keeps_self | intros _; apply print_summary_keeps_self].
Qed.

(** C2. Once the configuration is loaded with all three mode flags unset,
    [setup] raises the configuration error, no pipeline has been
    constructed and the handle [self.pipeline] is what it was: [None] for a
    new object. *)
Theorem setup_nothing_enabled (device : value) st :
  let settings := after (load_configuration (Y:=Empty_set) st) in
  result (load_configuration (Y:=Empty_set) st) = inr tt ->
  enable_images_generation (self settings) = Some false ->
  enable_image_edits (self settings) = Some false ->
  enable_image_variations (self settings) = Some false ->
  result (setup device st) = inl (ValueError no_pipeline_enabled) /\
  constructed (after (setup device st)) = constructed st /\
  handle (after (setup device st)) = handle st /\
  (self st = init -> handle (after (setup device st)) = None).
Proof.
  intros settings Hcfg Hg He Hv.
  destruct (load_pipeline_none_enabled (Y:=Empty_set) settings Hg He Hv)
    as (Hres & Hself & _ & Htrace).
  unfold setup.
  rewrite (after_bind_ok _ _ st tt Hcfg), (result_bind_ok _ _ st tt Hcfg).
  fold settings. rewrite (bind_raised _ _ settings _ Hres).
  cbn [after result].
  assert (Hh : handle (after (load_pipeline (Y:=Empty_set) settings)) = handle st).
  { unfold handle. rewrite Hself. apply load_configuration_keeps_handle. }
  repeat split.
  - unfold constructed. rewrite Htrace, constructions_snoc, app_nil_r.
    apply load_configuration_keeps_constructed.
  - exact Hh.
  - intros Hinit. rewrite Hh. unfold handle. now rewrite Hinit.
Qed.

(** *** Handlers *)

Lemma for_each_yield {Y} (ys : list Y) st :
  for_each ys yield st = Out st ys (inr tt).
Proof.
  revert st. induction ys as [|y ys IH]; intros st; [reflexivity|].
  simpl. unfold bind. simpl. now rewrite IH.
Qed.

Section Rounds.
Variables (p : Pipe) (args : kwargs).

Lemma round_run st :
  round p args st =
    let wr := pipe_call p args (world st) in
    match wr.2 with
    | inl e => Out (called p args st wr.1) [] (inl e)
    | inr images => Out (called p args st wr.1) images (inr tt)
    end.
Proof.
  unfold round. rewrite (bind_silent _ _ st _ _ eq_refl).
  cbv zeta. destruct (pipe_call p args (world st)) as [w [e|images]]; simpl;
    [reflexivity | apply for_each_yield].
Qed.

(** Whatever the pipeline answers, the loop calls it with the same
    arguments each time, at most [k] times, and [k] times if it ends
    normally. *)
Lemma rounds_invocations k st :
  let out := for_range k (round p args) st in
  exists j, (j <= k)%nat /\
    invocations (trace (after out)) = invocations (trace st) ++ replicate j (p, args) /\
    (result out = inr tt -> j = k).
Proof.
  revert st. induction k as [|k IH]; intros st; simpl.
  - exists 0%nat. now rewrite app_nil_r.
  - unfold bind. rewrite round_run. cbv zeta.
    destruct (pipe_call p args (world st)) as [w [e|images]]; simpl.
    + exists 1%nat. rewrite invocations_snoc. split; [lia|]. split; [reflexivity|].
      discriminate.
    + destruct (IH (called p args st w)) as (j & Hj & Hinv & Hres).
      exists (S j). split; [lia|]. split.
      * rewrite Hinv. simpl. rewrite invocations_snoc, <- app_assoc. reflexivity.
      * intros Hok. f_equal. now apply Hres.
Qed.

Lemma rounds_trace k st :
  exists tail, trace (after (for_range k (round p args) st)) = trace st ++ tail.
Proof.
  revert st. induction k as [|k IH]; intros st; simpl.
  - exists []. now rewrite app_nil_r.
  - unfold bind. rewrite round_run. cbv zeta.
    destruct (pipe_call p args (world st)) as [w [e|images]]; simpl.
    + now exists [Call p args].
    + destruct (IH (called p args st w)) as [tail ->].
      exists (Call p args :: tail). simpl. now rewrite <- app_assoc.
Qed.

(** A pipeline that answers every such call is called [k] times, and
    yields [k] batches of images. *)
Lemma rounds_answered k st :
  (forall w, exists w' images, pipe_call p args w = (w', inr images)) ->
  let out := for_range k (round p args) st in
  result out = inr tt /\
  invocations (trace (after out)) = invocations (trace st) ++ replicate k (p, args).
Proof.
  intros Hans out.
  assert (Hres : result out = inr tt).
  { subst out. revert st. induction k as [|k IH]; intros st; simpl; [reflexivity|].
    unfold bind. rewrite round_run. cbv zeta.
    destruct (Hans (world st)) as (w' & images & ->). simpl. apply IH. }
  split; [exact Hres|].
  destruct (rounds_invocations k st) as (j & _ & Hinv & Hj).
  fold out in Hinv, Hj. now rewrite Hinv, (Hj Hres).
Qed.

Lemma rounds_length k st (per_call : nat) :
  (forall w, exists w' images, pipe_call p args w = (w', inr images)) ->
  (forall w w' images, pipe_call p args w = (w', inr images) -> length images = per_call) ->
  length (yielded (for_range k (round p args) st)) = (k * per_call)%nat.
Proof.
  intros Hans Hlen. revert st. induction k as [|k IH]; intros st; simpl; [reflexivity|].
  unfold bind. rewrite round_run. cbv zeta.
  destruct (Hans (world st)) as (w' & images & Hcall). rewrite Hcall. simpl.
  rewrite length_app, IH. now rewrite (Hlen _ _ _ Hcall).
Qed.

End Rounds.

(** A handler, step by step: the view, then the bound, then the rounds. *)
Lemma handler_run m request st :
  handler m request st =
    let wr := from_pipe (family_of m) (handle st) (world st) in
    match wr.2 with
    | inl e => Out (derived m st wr.1) [] (inl e)
    | inr p =>
        match py_min (dict_get request "n" (VInt 1)) (max_n (self st)) with
        | inl e => Out (derived m st wr.1) [] (inl e)
        | inr k => for_range (Z.to_nat k) (round p (arguments m request)) (derived m st wr.1)
        end
    end.
Proof.
  cbv zeta. unfold derived, handle.
  destruct m; simpl;
    [unfold generate_images | unfold edit_images | unfold generate_variations];
    do 2 run_step;
    (destruct (from_pipe _ (pipeline (self st)) (world st)) as [w [e|p]]; simpl;
     [reflexivity|]);
    do 2 run_step;
    (destruct (py_min _ _) as [e|k]; reflexivity).
Qed.

Lemma handler_keeps_self m request : keeps self (handler m request).
Proof.
  destruct m; simpl;
    [unfold generate_images | unfold edit_images | unfold generate_variations];
    keeps_steps; reflexivity.
Qed.

Lemma py_min_int (n bound : Z) : py_min (VInt n) (VInt bound) = inr (Z.min n bound).
Proof. unfold py_min. f_equal. destruct (Z.ltb_spec bound n); lia. Qed.

Lemma invoked_replicate st {Y A} (out : out W Y A) k x :
  invocations (trace (after out)) = invocations (trace st) ++ replicate k x ->
  invoked st out = k.
Proof. unfold invoked. intros ->. rewrite length_app, length_replicate. lia. Qed.

(** C3, as the code has it. A handler whose view is derived and whose
    pipeline answers every call invokes the pipeline [min(n, max_n)] times
    when that is positive and not at all otherwise, where [n] is the
    request's [n] or 1 when it is absent: there is an upper bound only.
    For [n] and [max_n] both at least 1 this is [n] clamped to
    [[1, max_n]], and [n = 3] with [max_n = 2] gives 2 invocations. *)
Theorem handler_invocations (m : mode) request st (n bound : Z) p w1 :
  dict_get request "n" (VInt 1) = VInt n ->
  max_n (self st) = VInt bound ->
  from_pipe (family_of m) (handle st) (world st) = (w1, inr p) ->
  (forall w, exists w' images, pipe_call p (arguments m request) w = (w', inr images)) ->
  let out := handler m request st in
  result out = inr tt /\
  invocations (trace (after out)) =
    invocations (trace st) ++ replicate (Z.to_nat (Z.min n bound)) (p, arguments m request) /\
  invoked st out = Z.to_nat (Z.min n bound) /\
  (request !! "n" = None -> n = 1) /\
  (1 <= n -> 1 <= bound -> Z.of_nat (invoked st out) = clamp 1 bound n) /\
  (n = 3 -> bound = 2 -> invoked st out = 2%nat).
Proof.
  intros Hn Hbound Hview Hans out.
  assert (Hrun : out = for_range (Z.to_nat (Z.min n bound))
                         (round p (arguments m request)) (derived m st w1)).
  { unfold out. rewrite handler_run. cbv zeta.
    rewrite Hview, Hn, Hbound, py_min_int. reflexivity. }
  destruct (rounds_answered p _ (Z.to_nat (Z.min n bound)) (derived m st w1) Hans)
    as [Hres Hinv].
  rewrite <- Hrun in Hres, Hinv.
  assert (Hall : invocations (trace (after out)) =
                   invocations (trace st) ++
                   replicate (Z.to_nat (Z.min n bound)) (p, arguments m request)).
  { rewrite Hinv. unfold derived. simpl. now rewrite invocations_snoc, app_nil_r. }
  pose proof (invoked_replicate st out _ _ Hall) as Hcount.
  repeat split; try assumption.
  - intros Habsent. unfold dict_get in Hn. rewrite Habsent in Hn. simpl in Hn.
    congruence.
  - intros H1n H1b. rewrite Hcount. unfold clamp. lia.
  - intros -> ->. now rewrite Hcount.
Qed.




(** C9. The generation handler called twice with the same request, on the
    same object, from any two states of the world (the second may be the
    one the first call left): when the view can be derived and the
    pipeline answers every call with its fixed number of images per call,
    the two calls end alike and yield sequences of the same length, the
    iteration count times the images per call, whatever images they are. *)
Theorem generate_images_twice request st1 st2 (per_call : nat) :
  self st1 = self st2 ->
  let args := arguments Generation request in
  (forall w, exists w' p, from_pipe Text2Image (handle st1) w = (w', inr p)) ->
  (forall p w, exists w' images, pipe_call p args w = (w', inr images)) ->
  (forall p w w' images, pipe_call p args w = (w', inr images) -> length images = per_call) ->
  let out1 := generate_images request st1 in
  let out2 := generate_images request st2 in
  result out1 = result out2 /\
  length (yielded out1) = length (yielded out2) /\
  (forall n bound,
     dict_get request "n" (VInt 1) = VInt n ->
     max_n (self st1) = VInt bound ->
     result out1 = inr tt /\
     length (yielded out1) = (Z.to_nat (Z.min n bound) * per_call)%nat) /\
  self (after out1) = self st1.
Proof.
  intros Hself args Hview Hans Hlen out1 out2.
  change (generate_images request) with (handler Generation request) in out1, out2.
  assert (Hhandle : handle st2 = handle st1) by (unfold handle; now rewrite Hself).
  destruct (Hview (world st1)) as (w1 & p1 & Hv1).
  destruct (Hview (world st2)) as (w2 & p2 & Hv2).
  assert (Hrun1 : out1 =
            match py_min (dict_get request "n" (VInt 1)) (max_n (self st1)) with
            | inl e => Out (derived Generation st1 w1) [] (inl e)
            | inr k => for_range (Z.to_nat k) (round p1 args) (derived Generation st1 w1)
            end).
  { unfold out1. rewrite handler_run. cbv zeta. simpl family_of. now rewrite Hv1. }
  assert (Hrun2 : out2 =
            match py_min (dict_get request "n" (VInt 1)) (max_n (self st1)) with
            | inl e => Out (derived Generation st2 w2) [] (inl e)
            | inr k => for_range (Z.to_nat k) (round p2 args) (derived Generation st2 w2)
            end).
  { unfold out2. rewrite handler_run. cbv zeta. simpl family_of.
    now rewrite Hhandle, Hv2, Hself. }
  split; [|split; [|split]].
  - rewrite Hrun1, Hrun2. destruct (py_min _ _) as [e|k]; [reflexivity|].
    destruct (rounds_answered p1 args (Z.to_nat k) (derived Generation st1 w1) (Hans p1))
      as [-> _].
    now destruct (rounds_answered p2 args (Z.to_nat k) (derived Generation st2 w2) (Hans p2))
      as [-> _].
  - rewrite Hrun1, Hrun2. destruct (py_min _ _) as [e|k]; [reflexivity|].
    rewrite (rounds_length p1 args _ _ per_call (Hans p1) (Hlen p1)).
    now rewrite (rounds_length p2 args _ _ per_call (Hans p2) (Hlen p2)).
  - intros n bound Hn Hbound. rewrite Hrun1, Hn, Hbound, py_min_int. split.
    + apply (rounds_answered p1 args _ _ (Hans p1)).
    + apply (rounds_length p1 args _ _ per_call (Hans p1) (Hlen p1)).
  - apply (handler_keeps_self Generation request).
Qed.

(** *** Dispatch *)

Lemma py_eq_str_spec v lit : py_eq_str v lit = true <-> v = VStr lit.
Proof.
  destruct v; simpl; try (split; [discriminate | congruence]).
  rewrite bool_decide_eq_true. split; congruence.
Qed.

(** [predict] in one step: it reads the request and three flags, and
    yields once. *)
Lemma predict_run request st :
  let request_type := dict_get request "request_type" VNone in
  predict request st =
    Out st
      [if py_eq_str request_type "generation" && truthy (enable_images_generation (self st))
       then Generator (generate_images request)
       else if py_eq_str request_type "edit" && truthy (enable_image_edits (self st))
       then Generator (edit_images request)
       else if py_eq_str request_type "variation" && truthy (enable_image_variations (self st))
       then Generator (generate_variations request)
       else sentinel]
      (inr tt).
Proof.
  cbv zeta. unfold predict. do 3 run_step. destruct st as [o env w tr]; simpl.
  repeat match goal with
    | |- context [if ?b then _ else _] => destruct b
    end; reflexivity.
Qed.

Lemma truthy_set (flag : option bool) : truthy flag = true -> flag = Some true.
Proof. destruct flag as [[|]|]; simpl; congruence. Qed.

Lemma unset_not_truthy (flag : option bool) : flag <> Some true -> truthy flag = false.
Proof. destruct flag as [[|]|]; simpl; congruence. Qed.

Lemma disabled (v : value) lit (flag : option bool) :
  (v = VStr lit -> flag <> Some true) -> py_eq_str v lit && truthy flag = false.
Proof.
  intros Hoff. destruct (py_eq_str v lit) eqn:Heq; [|reflexivity].
  simpl. apply unset_not_truthy, Hoff. now apply py_eq_str_spec.
Qed.

(** C4. A request whose type is none of "generation", "edit" and
    "variation", or whose type's flag is not set: [predict] yields the
    sentinel string and nothing else, returns normally, and leaves the
    state as it was, so no handler has run and no pipeline was called. *)
Theorem predict_unknown_or_disabled request st :
  (forall m, dict_get request "request_type" VNone = VStr (type_name m) ->
             enabled m (self st) <> Some true) ->
  predict request st = Out st [Sentinel "Unknown or disabled request type"] (inr tt).
Proof.
  intros Hoff. rewrite predict_run. cbv zeta.
  rewrite (disabled _ "generation" (enable_images_generation (self st)) (Hoff Generation)).
  rewrite (disabled _ "edit" (enable_image_edits (self st)) (Hoff Edit)).
  now rewrite (disabled _ "variation" (enable_image_variations (self st)) (Hoff Variation)).
Qed.

(** C5, as the code has it. [predict] routes by the request type and that
    type's flag alone: a request whose type's flag is set is handed to that
    type's handler whichever pipeline [setup] constructed and whatever the
    other flags are, and is not answered with the sentinel; the handler
    then asks [from_pipe] for its own view of the shared pipeline. *)
Theorem predict_routes_enabled (m : mode) request st :
  dict_get request "request_type" VNone = VStr (type_name m) ->
  enabled m (self st) = Some true ->
  predict request st = Out st [Generator (handler m request)] (inr tt) /\
  Generator (handler m request) <> sentinel /\
  forall st', exists tail,
    trace (after (handler m request st')) =
      trace st' ++ FromPipe (family_of m) (handle st') :: tail.
Proof.
  intros Hrt Hflag. split; [|split].
  - rewrite predict_run. cbv zeta. rewrite Hrt.
    destruct m; simpl in Hflag; rewrite Hflag; reflexivity.
  - discriminate.
  - intros st'. rewrite handler_run. cbv zeta.
    destruct (from_pipe _ _ _) as [w [e|p]]; simpl; [now exists []|].
    destruct (py_min _ _) as [e|k]; simpl; [now exists []|].
    destruct (rounds_trace p (arguments m request) (Z.to_nat k) (derived m st' w))
      as [tail ->].
    exists tail. unfold derived. simpl. now rewrite <- app_assoc.
Qed.

(** C10. [predict] yields exactly one item and ends, in the state it
    started from: the sentinel string, or the generator that the handler of
    the request's type, whose flag is set, makes for this request. It
    yields no image itself; images are what running that generator
    yields. *)
Theorem predict_yields_once request st :
  exists it : item W,
    predict request st = Out st [it] (inr tt) /\
    (it = Sentinel "Unknown or disabled request type" \/
     exists m,
       dict_get request "request_type" VNone = VStr (type_name m) /\
       enabled m (self st) = Some true /\
       it = Generator (handler m request)).
Proof.
  eexists. split; [apply predict_run|]. cbv zeta.
  repeat match goal with
    | |- context [if ?b then _ else _] => destruct b eqn:?
    end; [right; exists Generation | right; exists Edit | right; exists Variation | now left];
    match goal with
    | Hb : _ && _ = true |- _ =>
        apply andb_true_iff in Hb; destruct Hb as [Hrt Hflag];
        apply py_eq_str_spec in Hrt;
        (split; [exact Hrt | split; [|reflexivity]]);
        now apply truthy_set
    end.
Qed.

(** *** The whole of [setup] *)

Lemma bind_assoc {Y A B C} (c : Prog W Y A) (k : A -> Prog W Y B) (k' : B -> Prog W Y C) st :
  bind (bind c k) k' st = bind c (fun a => bind (k a) k') st.
Proof.
  unfold bind. destruct (c st) as [s1 y1 [e|a]]; simpl; [reflexivity|].
  destruct (k a s1) as [s2 y2 [e|b]]; simpl; [reflexivity|]. now rewrite app_assoc.
Qed.

Lemma bind_returns {Y A B} (c : Prog W Y A) (k : A -> Prog W Y B) st b :
  result (bind c k st) = inr b ->
  exists a, result (c st) = inr a /\ result (k a (after (c st))) = inr b.
Proof.
  unfold bind. destruct (result (c st)) as [e|a]; simpl; [discriminate|].
  intros Hk. now exists a.
Qed.

Lemma truthy_some (b : bool) : truthy (Some b) = b.
Proof. reflexivity. Qed.

Lemma when_true {Y} (c : Prog W Y unit) : when true c = c.
Proof. reflexivity. Qed.

Ltac run := run_step; cbn [fst snd]; cbv beta iota.

Lemma print_summary_run {Y} st :
  print_summary (Y:=Y) st =
    Out (MkState (self st) (environ st) (world st) (trace st ++ summary (self st)))
        [] (inr tt).
Proof.
  unfold print_summary. do 9 run.
  unfold print at 1. cbn [self environ world trace]. unfold id, summary.
  now rewrite <- !app_assoc.
Qed.

Lemma apply_settings_run {Y} st p p16 (offload slicing tiling : bool) :
  handle st = Some p ->
  enable_cpu_offload (self st) = Some offload ->
  enable_vae_slicing (self st) = Some slicing ->
  enable_vae_tiling (self st) = Some tiling ->
  (forall o w, exists w', enable o p w = (w', inr tt)) ->
  (forall w, exists w', to "float16" p w = (w', inr p16)) ->
  (forall w, exists w' p', to "cuda" p16 w = (w', inr p')) ->
  let out := apply_settings (Y:=Y) st in
  result out = inr tt /\ self (after out) = self st /\
  environ (after out) = environ st /\
  trace (after out) =
    trace st ++ options offload slicing tiling p ++ [To p "float16"; To p16 "cuda"].
Proof.
  intros Hh Ho Hs Ht Hen Hto Hcuda out. subst out. unfold handle in Hh.
  unfold apply_settings.
  destruct offload, slicing, tiling;
    repeat first
      [ rewrite bind_assoc
      | rewrite truthy_some
      | rewrite when_true
      | match goal with
        | |- context [enable ?o p ?w] => destruct (Hen o w) as [? ->]
        | |- context [to "float16" p ?w] => destruct (Hto w) as [? ->]
        | |- context [to "cuda" p16 ?w] => destruct (Hcuda w) as (? & ? & ->)
        end; cbn [fst snd]; cbv beta iota
      | rewrite Hh | rewrite Ho | rewrite Hs | rewrite Ht
      | run ];
    cbn [ret after result self environ trace]; unfold options;
    repeat split; simpl; now rewrite <- ?app_assoc.
Qed.

Lemma load_pipeline_run {Y} st (g e v : bool) w1 r :
  enable_images_generation (self st) = Some g ->
  enable_image_edits (self st) = Some e ->
  enable_image_variations (self st) = Some v ->
  g || e || v = true ->
  let fam := if g then Text2Image else if e then Inpainting else Image2Image in
  let asked :=
    trace st ++ [Printed "Loading model pipeline...";
                 FromPretrained fam (model_name (self st)) "bfloat16"] in
  from_pretrained fam (model_name (self st)) "bfloat16" (world st) = (w1, r) ->
  load_pipeline (Y:=Y) st =
    match r with
    | inl err => Out (MkState (self st) (environ st) w1 asked) [] (inl err)
    | inr p => Out (MkState (set_pipeline (Some p) (self st)) (environ st) w1 asked) []
                   (inr tt)
    end.
Proof.
  intros Hg He Hv Hany fam asked Hload. subst fam asked.
  unfold load_pipeline. do 5 run. rewrite Hg, He, Hv, !truthy_some.
  destruct g; [|destruct e; [|destruct v; [|discriminate]]];
    cbv beta iota; run; rewrite Hload; cbn [fst snd]; cbv beta iota;
    (destruct r as [err|p]; [|unfold assign; cbn [self environ world trace]]);
    now rewrite <- app_assoc.
Qed.

Lemma integers_read (env : gmap string string) :
  integers env ->
  exists n offload slicing tiling g e v,
    env_int env "MAX_N" 10 = inr n /\
    env_flag env "ENABLE_CPU_OFFLOAD" 0 = inr offload /\
    env_flag env "ENABLE_VAE_SLICING" 0 = inr slicing /\
    env_flag env "ENABLE_VAE_TILING" 0 = inr tiling /\
    env_flag env "ENABLE_IMAGES_GENERATION" 1 = inr g /\
    env_flag env "ENABLE_IMAGE_EDITS" 1 = inr e /\
    env_flag env "ENABLE_IMAGE_VARIATIONS" 1 = inr v.
Proof.
  intros Hint. unfold integers, coerced_variables in Hint.
  repeat match goal with
    | Hf : Forall _ (_ :: _) |- _ =>
        apply Forall_cons in Hf; destruct Hf as [[? ?] Hf]
    end.
  cbn [fst snd] in *. unfold env_flag.
  repeat match goal with
    | Hz : env_int _ _ _ = inr _ |- _ => rewrite Hz; clear Hz
    end.
  now eexists _, _, _, _, _, _, _.
Qed.

(** The last step of [load_configuration]: [config.json], absent, read or
    unreadable. *)
Lemma load_configuration_file {Y} st :
  integers (environ st) ->
  let out := load_configuration (Y:=Y) st in
  let asked := trace st ++ [PathExists config_path] in
  if path_exists config_path (world st)
  then
    trace (after out) = asked ++ [JsonLoad config_path] /\
    match (json_load config_path (world st)).2 with
    | inl e =>
        result out = inl e /\
        quality_presets (self (after out)) = quality_presets (self st)
    | inr j =>
        result out = inr tt /\
        quality_presets (self (after out)) = Loaded <$> j
    end
  else
    trace (after out) = asked /\ result out = inr tt /\
    quality_presets (self (after out)) = Some EmptyDict.
Proof.
  intros Hint out asked. subst out asked.
  destruct (integers_read _ Hint)
    as (n & offload & slicing & tiling & g & e & v & Hn & Ho & Hs & Ht & Hg & He & Hv).
  unfold load_configuration.
  do 3 run. rewrite Hn. cbv beta iota. do 2 run. rewrite Ho. cbv beta iota.
  do 2 run. rewrite Hs. cbv beta iota. do 2 run. rewrite Ht. cbv beta iota.
  do 2 run. rewrite Hg. cbv beta iota. do 2 run. rewrite He. cbv beta iota.
  do 2 run. rewrite Hv. cbv beta iota. do 2 run.
  destruct (path_exists config_path (world st)).
  - run. destruct (json_load config_path (world st)) as [w' [err|j]];
      cbn [fst snd]; cbv beta iota; now rewrite <- app_assoc.
  - easy.
Qed.

Lemma load_configuration_returns {Y} st :
  result (load_configuration (Y:=Y) st) = inr tt ->
  exists q n offload slicing tiling g e v,
    self (after (load_configuration (Y:=Y) st)) =
      MkLitFusion (pipeline (self st)) q (Some v) (Some e) (Some g)
        (Some tiling) (Some slicing) (Some offload) (VInt n)
        (os_getenv (environ st) "MODEL" (VStr "default-model")) /\
    (if path_exists config_path (world st)
     then exists j, (json_load config_path (world st)).2 = inr j /\
                    q = Loaded <$> j
     else q = Some EmptyDict).
Proof.
  unfold load_configuration. run_all; cbn [result after self];
    first [ discriminate
          | intros _; eexists _, _, _, _, _, _, _, _;
            (split; [reflexivity|]);
            first [ reflexivity | eexists; split; [eassumption|reflexivity] ] ].
Qed.

Lemma load_pipeline_returns {Y} st :
  result (load_pipeline (Y:=Y) st) = inr tt ->
  exists p,
    self (after (load_pipeline (Y:=Y) st)) = set_pipeline (Some p) (self st) /\
    truthy (enable_images_generation (self st)) ||
    truthy (enable_image_edits (self st)) ||
    truthy (enable_image_variations (self st)) = true.
Proof.
  unfold load_pipeline. do 5 run.
  destruct (truthy (enable_images_generation (self st)));
    [|destruct (truthy (enable_image_edits (self st)));
      [|destruct (truthy (enable_image_variations (self st)))]];
    cbv beta iota; try discriminate;
    run; (destruct (from_pretrained _ _ _ _) as [w [err|p]]);
    cbn [fst snd]; cbv beta iota; try discriminate;
    intros _; exists p; (split; [reflexivity | now rewrite ?orb_true_r]).
Qed.

Lemma rest_keeps_self {Y} :
  keeps (W:=W) (Y:=Y) self (apply_settings ;;; print_summary).
Proof.
  apply (keeps_bind self);
    [apply apply_settings_keeps_self | intros _; apply print_summary_keeps_self].
Qed.

Lemma load_pipeline_keeps_presets {Y} :
  keeps (W:=W) (Y:=Y) (fun st => quality_presets (self st)) load_pipeline.
Proof. unfold load_pipeline. keeps_steps; reflexivity. Qed.

Lemma setup_presets_kept device st :
  quality_presets (self (after (setup device st))) =
    quality_presets (self (after (load_configuration (Y:=Empty_set) st))).
Proof.
  unfold setup. apply (keeps_tail (fun st => quality_presets (self st))).
  intros _. apply keeps_bind; [apply load_pipeline_keeps_presets|].
  intros _ st'. f_equal. apply rest_keeps_self.
Qed.

(** X1. The quality presets [setup] leaves on the object: the empty mapping
    when there is no [config.json] (its absence is no error), and what
    [json.load] returned when there is one, which is [None] for a file that
    holds [null]. The premise is on Python's own [int]: the variables
    [setup] coerces read as integers. *)
Theorem setup_presets (device : value) st :
  integers (environ st) ->
  let o := self (after (setup device st)) in
  (path_exists config_path (world st) = false -> quality_presets o = Some EmptyDict) /\
  (forall w' j,
     path_exists config_path (world st) = true ->
     json_load config_path (world st) = (w', inr j) ->
     quality_presets o = Loaded <$> j).
Proof.
  intros Hint o. subst o. rewrite setup_presets_kept.
  pose proof (load_configuration_file (Y:=Empty_set) st Hint) as Hfile.
  cbv zeta in Hfile. split.
  - intros Hno. rewrite Hno in Hfile. apply Hfile.
  - intros w' j Hyes Hload. rewrite Hyes, Hload in Hfile. apply Hfile.
Qed.

(** X2. A [config.json] that is there and cannot be read or parsed stops
    [setup] with what [json.load] raised, right after the two file calls:
    no pipeline is constructed and the handle is what it was. *)
Theorem setup_presets_unreadable (device : value) st w' e :
  integers (environ st) ->
  path_exists config_path (world st) = true ->
  json_load config_path (world st) = (w', inl e) ->
  let out := setup device st in
  result out = inl e /\
  trace (after out) = trace st ++ [PathExists config_path; JsonLoad config_path] /\
  constructed (after out) = constructed st /\
  handle (after out) = handle st.
Proof.
  intros Hint Hyes Hload out. subst out.
  pose proof (load_configuration_file (Y:=Empty_set) st Hint) as Hfile.
  cbv zeta in Hfile. rewrite Hyes, Hload in Hfile.
  destruct Hfile as (Htrace & Hres & _). cbn [snd] in Hres.
  unfold setup. rewrite (bind_raised _ _ st _ Hres). cbn [after result].
  split; [reflexivity|]. split; [now rewrite Htrace, <- app_assoc|].
  split; [apply load_configuration_keeps_constructed
         | apply load_configuration_keeps_handle].
Qed.

(** X3. The whole trace of a [setup] that nothing stops. After the
    configuration is loaded, [setup] prints that it loads the pipeline,
    constructs it, applies the memory options whose flags are set and only
    those, in the order CPU offload, VAE slicing, VAE tiling, and only then
    casts the pipeline to float16 and moves what the cast returned to
    "cuda"; it ends by printing the summary of the object as it now is, and
    returns normally. *)
Theorem setup_trace (device : value) st (g e v offload slicing tiling : bool) w1 p p16 :
  let settings := after (load_configuration (Y:=Empty_set) st) in
  result (load_configuration (Y:=Empty_set) st) = inr tt ->
  enable_images_generation (self settings) = Some g ->
  enable_image_edits (self settings) = Some e ->
  enable_image_variations (self settings) = Some v ->
  g || e || v = true ->
  enable_cpu_offload (self settings) = Some offload ->
  enable_vae_slicing (self settings) = Some slicing ->
  enable_vae_tiling (self settings) = Some tiling ->
  let fam := if g then Text2Image else if e then Inpainting else Image2Image in
  let model := model_name (self settings) in
  from_pretrained fam model "bfloat16" (world settings) = (w1, inr p) ->
  (forall o w, exists w', enable o p w = (w', inr tt)) ->
  (forall w, exists w', to "float16" p w = (w', inr p16)) ->
  (forall w, exists w' p', to "cuda" p16 w = (w', inr p')) ->
  let out := setup device st in
  result out = inr tt /\
  self (after out) = set_pipeline (Some p) (self settings) /\
  trace (after out) =
    trace settings ++
    [Printed "Loading model pipeline..."; FromPretrained fam model "bfloat16"] ++
    options offload slicing tiling p ++
    [To p "float16"; To p16 "cuda"] ++
    summary (set_pipeline (Some p) (self settings)).
Proof.
  intros settings Hcfg Hg He Hv Hany Ho Hs Ht fam model Hload Hen Hto Hcuda out.
  pose proof (load_pipeline_run (Y:=Empty_set) settings g e v w1 (inr p)
                Hg He Hv Hany Hload) as Hlp.
  cbv beta iota zeta in Hlp. fold fam model in Hlp.
  set (loaded := MkState (set_pipeline (Some p) (self settings)) (environ settings) w1
                   (trace settings ++
                    [Printed "Loading model pipeline...";
                     FromPretrained fam model "bfloat16"])) in *.
  assert (Hlpres : result (load_pipeline (Y:=Empty_set) settings) = inr tt)
    by now rewrite Hlp.
  assert (Hlpafter : after (load_pipeline (Y:=Empty_set) settings) = loaded)
    by now rewrite Hlp.
  destruct (apply_settings_run (Y:=Empty_set) loaded p p16 offload slicing tiling)
    as (Hasres & Hasself & Hasenv & Hastrace); try assumption; try reflexivity.
  set (placed := after (apply_settings (Y:=Empty_set) loaded)) in *.
  subst out. unfold setup.
  rewrite (after_bind_ok _ _ st tt Hcfg), (result_bind_ok _ _ st tt Hcfg).
  fold settings.
  rewrite (after_bind_ok _ _ settings tt Hlpres), (result_bind_ok _ _ settings tt Hlpres).
  rewrite Hlpafter.
  rewrite (after_bind_ok _ _ loaded tt Hasres), (result_bind_ok _ _ loaded tt Hasres).
  fold placed. rewrite print_summary_run. cbn [result after self trace].
  rewrite Hasself, Hastrace. unfold loaded. cbn [self trace].
  repeat split. now rewrite <- !app_assoc.
Qed.

(** X4. A model that cannot be loaded stops [setup] with what
    [from_pretrained] raised: nothing is called after that constructor, no
    memory option, no placement and no summary, and the handle is what it
    was. *)
Theorem setup_model_load_fails (device : value) st (g e v : bool) w1 err :
  let settings := after (load_configuration (Y:=Empty_set) st) in
  result (load_configuration (Y:=Empty_set) st) = inr tt ->
  enable_images_generation (self settings) = Some g ->
  enable_image_edits (self settings) = Some e ->
  enable_image_variations (self settings) = Some v ->
  g || e || v = true ->
  let fam := if g then Text2Image else if e then Inpainting else Image2Image in
  let model := model_name (self settings) in
  from_pretrained fam model "bfloat16" (world settings) = (w1, inl err) ->
  let out := setup device st in
  result out = inl err /\
  handle (after out) = handle st /\
  trace (after out) =
    trace settings ++
    [Printed "Loading model pipeline..."; FromPretrained fam model "bfloat16"].
Proof.
  intros settings Hcfg Hg He Hv Hany fam model Hload out.
  pose proof (load_pipeline_run (Y:=Empty_set) settings g e v w1 (inl err)
                Hg He Hv Hany Hload) as Hlp.
  cbv beta iota zeta in Hlp. fold fam model in Hlp.
  assert (Hlpres : result (load_pipeline (Y:=Empty_set) settings) = inl err)
    by now rewrite Hlp.
  subst out. unfold setup.
  rewrite (after_bind_ok _ _ st tt Hcfg), (result_bind_ok _ _ st tt Hcfg).
  fold settings. rewrite (bind_raised _ _ settings _ Hlpres). cbn [after result].
  rewrite Hlp. cbn [after]. unfold handle. cbn [self trace].
  repeat split. apply load_configuration_keeps_handle.
Qed.

(** X5. When [setup] returns, the handle holds a pipeline, [max_n] is an
    integer, the model name is a string, the six flags are booleans and at
    least one of the three mode flags is set. The presets are the empty
    mapping when there is no [config.json] and what [json.load] returned
    when there is one: they are [None] still for a file that holds [null],
    the one attribute [setup] can return with unset. *)
Theorem setup_returns_ready (device : value) st :
  result (setup device st) = inr tt ->
  exists p q offload slicing tiling g e v n s,
    self (after (setup device st)) =
      MkLitFusion (Some p) q (Some v) (Some e) (Some g) (Some tiling)
        (Some slicing) (Some offload) (VInt n) (VStr s) /\
    g || e || v = true /\
    (if path_exists config_path (world st)
     then exists j, (json_load config_path (world st)).2 = inr j /\
                    q = Loaded <$> j
     else q = Some EmptyDict).
Proof.
  unfold setup. intros Hret.
  destruct (bind_returns _ _ _ _ Hret) as ([] & Hcfg & Hrest).
  destruct (bind_returns _ _ _ _ Hrest) as ([] & Hlp & _).
  rewrite (after_bind_ok _ _ st tt Hcfg).
  rewrite (after_bind_ok _ _ _ tt Hlp).
  rewrite (rest_keeps_self (Y:=Empty_set)).
  destruct (load_configuration_returns st Hcfg)
    as (q & n & offload & slicing & tiling & g & e & v & Hself & Hq).
  destruct (load_pipeline_returns _ Hlp) as (p & Hpipe & Hany).
  rewrite Hself in Hpipe, Hany. cbn in Hany.
  assert (Hmodel : exists s, os_getenv (environ st) "MODEL" (VStr "default-model") = VStr s).
  { unfold os_getenv. destruct (environ st !! "MODEL"); now eexists. }
  destruct Hmodel as [s Hs].
  exists p, q, offload, slicing, tiling, g, e, v, n, s.
  split; [|split; [exact Hany|exact Hq]]. rewrite Hpipe, <- Hs. reflexivity.
Qed.

(** X6. From the environment to the constructor: when the variables read
    as integers, one of the three mode variables is nonzero (or unset) and
    [config.json] is absent or loads, [setup] constructs one pipeline, of
    the family the first enabled mode names, for the model [MODEL] names,
    "default-model" when it is unset. *)
Theorem setup_constructs_from_environment (device : value) st (g e v : bool) :
  let env := environ st in
  integers env ->
  env_flag env "ENABLE_IMAGES_GENERATION" 1 = inr g ->
  env_flag env "ENABLE_IMAGE_EDITS" 1 = inr e ->
  env_flag env "ENABLE_IMAGE_VARIATIONS" 1 = inr v ->
  g || e || v = true ->
  (path_exists config_path (world st) = false \/
   exists w' j, json_load config_path (world st) = (w', inr j)) ->
  let fam := if g then Text2Image else if e then Inpainting else Image2Image in
  constructed (after (setup device st)) =
    constructed st ++ [(fam, os_getenv env "MODEL" (VStr "default-model"))].
Proof.
  intros env Hint Hg He Hv Hany Hfile fam.
  destruct (integers_read _ Hint)
    as (n & offload & slicing & tiling & g' & e' & v' & Hn & Ho & Hs & Ht & Hg' & He' & Hv').
  fold env in Hg', He', Hv'.
  assert (g' = g) as -> by congruence.
  assert (e' = e) as -> by congruence.
  assert (v' = v) as -> by congruence.
  pose proof (load_configuration_resolves (Y:=Empty_set) st _ _ _ _ _ _ _
                Hn Ho Hs Ht Hg He Hv) as Hres.
  apply resolved_eq in Hres.
  destruct Hres as (Hmodel & _ & _ & _ & _ & Hsg & Hse & Hsv).
  assert (Hcfg : result (load_configuration (Y:=Empty_set) st) = inr tt).
  { pose proof (load_configuration_file (Y:=Empty_set) st Hint) as Hf.
    cbv zeta in Hf.
    destruct (path_exists config_path (world st)); [|apply Hf].
    destruct Hfile as [|(w' & j & Hload)]; [discriminate|].
    rewrite Hload in Hf. apply Hf. }
  destruct (load_pipeline_constructs (Y:=Empty_set) _ g e v Hsg Hse Hsv Hany)
    as [Hcons _].
  unfold setup. rewrite (after_bind_ok _ _ st tt Hcfg).
  rewrite (keeps_tail constructed).
  - rewrite Hcons, Hmodel. f_equal. apply load_configuration_keeps_constructed.
  - intros _. apply keeps_bind;
      [apply apply_settings_keeps_constructed
      | intros _; apply print_summary_keeps_constructed].
Qed.

(** X7. [MAX_N] is the cap the handlers apply. Whatever else [setup] met
    after reading it, a request served on the object [setup] left calls the
    pipeline at most [min(n, MAX_N)] times, and at most [min(n, 10)] times
    when [MAX_N] is unset. *)
Theorem served_within_max_n (device : value) (m : mode) request st (n cap : Z) :
  env_int (environ st) "MAX_N" 10 = inr cap ->
  dict_get request "n" (VInt 1) = VInt n ->
  let served := handler m request (after (setup device st)) in
  (invoked (after (setup device st)) served <= Z.to_nat (Z.min n cap))%nat /\
  (environ st !! "MAX_N" = None -> cap = 10).
Proof.
  intros Hcap Hn served. split.
  - assert (Hmax : max_n (self (after (setup device st))) = VInt cap).
    { pose proof (setup_resolved device st) as Hres.
      apply (f_equal (fun t => t.1.1.1.1.1.1.2)) in Hres. simpl in Hres.
      rewrite Hres. now apply load_configuration_max_n. }
    subst served. unfold invoked. rewrite handler_run. cbv zeta.
    destruct (from_pipe _ _ _) as [w [e|p]]; simpl.
    + rewrite invocations_snoc, app_nil_r. lia.
    + rewrite Hn, Hmax, py_min_int.
      destruct (rounds_invocations p (arguments m request) (Z.to_nat (Z.min n cap))
                  (derived m (after (setup device st)) w)) as (j & Hj & Hinv & _).
      rewrite Hinv. unfold derived. simpl.
      rewrite invocations_snoc, app_nil_r, length_app, length_replicate. lia.
  - intros Hunset. rewrite (env_int_unset _ _ _ Hunset) in Hcap. congruence.
Qed.

(** *** Requests before [setup], and what a handler does with its request *)

(** X8. On an object that [setup] has not configured, where every flag is
    still [None], [predict] answers every request with the sentinel and
    touches nothing. *)
Theorem predict_before_setup request st :
  self st = init ->
  predict request st = Out st [Sentinel "Unknown or disabled request type"] (inr tt).
Proof.
  intros Hinit. rewrite predict_run. cbv zeta. rewrite Hinit. simpl.
  now rewrite !andb_false_r.
Qed.

Lemma py_min_unordered (a b : value) :
  (forall z, a <> VInt z) \/ (forall z, b <> VInt z) -> py_min a b = inl (TypeError "min").
Proof.
  intros [Ha|Hb]; destruct a as [|x| |]; try reflexivity.
  - now destruct (Ha x).
  - destruct b as [|y| |]; try reflexivity. now destruct (Hb y).
Qed.



(** X11. [max_n] caps the pipeline calls of a request whatever the pipeline
    answers: a handler calls one view, always with the same arguments, at
    most [min(n, max_n)] times, and exactly that many times when it ends
    normally. *)
Theorem handler_calls_capped (m : mode) request st (n bound : Z) :
  dict_get request "n" (VInt 1) = VInt n ->
  max_n (self st) = VInt bound ->
  let out := handler m request st in
  exists j p,
    (j <= Z.to_nat (Z.min n bound))%nat /\
    invocations (trace (after out)) =
      invocations (trace st) ++ replicate j (p, arguments m request) /\
    (result out = inr tt -> j = Z.to_nat (Z.min n bound)).
Proof.
  intros Hn Hbound out. unfold out. rewrite handler_run. cbv zeta.
  destruct (from_pipe _ _ _) as [w [e|p]]; simpl.
  - exists 0%nat, (MkPipe 0). split; [lia|]. split; [|discriminate].
    now rewrite invocations_snoc, !app_nil_r.
  - rewrite Hn, Hbound, py_min_int.
    destruct (rounds_invocations p (arguments m request) (Z.to_nat (Z.min n bound))
                (derived m st w)) as (j & Hj & Hinv & Hres).
    exists j, p. split; [exact Hj|]. split; [|exact Hres].
    rewrite Hinv. unfold derived. simpl. now rewrite invocations_snoc, app_nil_r.
Qed.

(** X12. A count that is no integer (an [n] that is a string or an explicit
    [None]) is found out only after the view is derived: the handler raises
    the [TypeError] of [min], having called [from_pipe] and nothing else. *)
Theorem handler_count_not_int (m : mode) request st p w1 :
  (forall z, dict_get request "n" (VInt 1) <> VInt z) ->
  from_pipe (family_of m) (handle st) (world st) = (w1, inr p) ->
  let out := handler m request st in
  result out = inl (TypeError "min") /\
  yielded out = [] /\
  trace (after out) = trace st ++ [FromPipe (family_of m) (handle st)].
Proof.
  intros Hn Hview out. unfold out. rewrite handler_run. cbv zeta.
  rewrite Hview. simpl. rewrite py_min_unordered by now left. easy.
Qed.

(** X13. A count that is zero or negative, or a [max_n] that is, is no
    error: the handler derives its view, calls no pipeline, yields nothing
    and returns normally. *)
Theorem handler_count_not_positive (m : mode) request st (n bound : Z) p w1 :
  dict_get request "n" (VInt 1) = VInt n ->
  max_n (self st) = VInt bound ->
  Z.min n bound <= 0 ->
  from_pipe (family_of m) (handle st) (world st) = (w1, inr p) ->
  let out := handler m request st in
  result out = inr tt /\
  yielded out = [] /\
  trace (after out) = trace st ++ [FromPipe (family_of m) (handle st)].
Proof.
  intros Hn Hbound Hmin Hview out. unfold out. rewrite handler_run. cbv zeta.
  rewrite Hview, Hn, Hbound, py_min_int. simpl.
  replace (Z.to_nat (Z.min n bound)) with 0%nat by lia. easy.
Qed.

Lemma rounds_yield_bound p args k st (per_call : nat) :
  (forall w w' images,
     pipe_call p args w = (w', inr images) -> (length images <= per_call)%nat) ->
  (length (yielded (for_range k (round p args) st)) <= k * per_call)%nat.
Proof.
  intros Hlen. revert st. induction k as [|k IH]; intros st; simpl; [lia|].
  unfold bind. rewrite round_run. cbv zeta.
  destruct (pipe_call p args (world st)) as [w [e|images]] eqn:Hcall; simpl; [lia|].
  rewrite length_app. specialize (IH (called p args st w)).
  specialize (Hlen _ _ _ Hcall). lia.
Qed.

(** X14. Whether the request ends normally or raises on the way, it yields
    at most [min(n, max_n)] times the largest number of images one call
    returns. *)
Theorem handler_yield_bound (m : mode) request st (n bound : Z) (per_call : nat) :
  dict_get request "n" (VInt 1) = VInt n ->
  max_n (self st) = VInt bound ->
  (forall p w w' images,
     pipe_call p (arguments m request) w = (w', inr images) ->
     (length images <= per_call)%nat) ->
  (length (yielded (handler m request st)) <= Z.to_nat (Z.min n bound) * per_call)%nat.
Proof.
  intros Hn Hbound Hlen. rewrite handler_run. cbv zeta.
  destruct (from_pipe _ _ _) as [w [e|p]]; simpl; [lia|].
  rewrite Hn, Hbound, py_min_int. apply rounds_yield_bound, Hlen.
Qed.

Lemma rounds_same_world p args k st1 st2 :
  world st1 = world st2 ->
  let out1 := for_range k (round p args) st1 in
  let out2 := for_range k (round p args) st2 in
  yielded out1 = yielded out2 /\ result out1 = result out2 /\
  world (after out1) = world (after out2) /\
  exists tail, trace (after out1) = trace st1 ++ tail /\
               trace (after out2) = trace st2 ++ tail.
Proof.
  revert st1 st2. induction k as [|k IH]; intros st1 st2 Hw; simpl.
  - repeat split; [exact Hw|]. exists []. now rewrite !app_nil_r.
  - unfold bind. rewrite !round_run. cbv zeta. rewrite <- Hw.
    destruct (pipe_call p args (world st1)) as [w [e|images]]; simpl.
    + repeat split. now exists [Call p args].
    + destruct (IH (called p args st1 w) (called p args st2 w) eq_refl)
        as (Hy & Hr & Hw' & tail & Ht1 & Ht2).
      rewrite Hy, Hr, Hw', Ht1, Ht2. repeat split.
      exists (Call p args :: tail). simpl. now rewrite <- !app_assoc.
Qed.

(** X15. A handler reads the object for its pipeline handle and its
    [max_n] and for nothing else: on two objects that agree on these two,
    in the same world, it yields the same images, ends the same way and
    makes the same calls. The quality presets, the model name and the
    flags are never consulted. *)
Theorem handler_reads_handle_and_bound (m : mode) request st1 st2 :
  handle st1 = handle st2 ->
  max_n (self st1) = max_n (self st2) ->
  world st1 = world st2 ->
  let out1 := handler m request st1 in
  let out2 := handler m request st2 in
  yielded out1 = yielded out2 /\ result out1 = result out2 /\
  world (after out1) = world (after out2) /\
  exists tail, trace (after out1) = trace st1 ++ tail /\
               trace (after out2) = trace st2 ++ tail.
Proof.
  intros Hh Hb Hw out1 out2. unfold out1, out2. rewrite !handler_run. cbv zeta.
  rewrite <- Hh, <- Hb, <- Hw.
  destruct (from_pipe _ _ _) as [w [e|p]]; simpl.
  - repeat split. unfold derived; simpl. rewrite <- Hh. now eexists.
  - destruct (py_min _ _) as [e|k]; simpl.
    + repeat split. unfold derived; simpl. rewrite <- Hh. now eexists.
    + destruct (rounds_same_world p (arguments m request) (Z.to_nat k)
                  (derived m st1 w) (derived m st2 w) eq_refl)
        as (Hy & Hr & Hw' & tail & Ht1 & Ht2).
      repeat split; try assumption.
      exists (FromPipe (family_of m) (handle st1) :: tail).
      rewrite Ht1, Ht2. unfold derived; simpl. rewrite <- Hh.
      now rewrite <- !app_assoc.
Qed.

(** X16. Serving a request never writes to the object or to the
    environment: after a handler has run, normally or not, every attribute
    and every variable is what it was. *)
Theorem handler_keeps_object (m : mode) request st :
  let out := handler m request st in
  self (after out) = self st /\ environ (after out) = environ st.
Proof.
  intros out. subst out. split; [apply (handler_keeps_self m request)|].
  revert st. change (keeps environ (handler m request)).
  destruct m; simpl;
    [unfold generate_images | unfold edit_images | unfold generate_variations];
    keeps_steps; reflexivity.
Qed.

End Properties.

(** ** The properties at work in the concrete world *)

Lemma ready_self :
  self ready =
    MkLitFusion (Some (MkPipe 0)) (Some EmptyDict) (Some true) (Some true) (Some true)
      (Some false) (Some false) (Some false) (VInt 10) (VStr "default-model").
Proof. vm_compute. reflexivity. Qed.

Lemma ready_constructed : constructed ready = [(Text2Image, VStr "default-model")].
Proof. vm_compute. reflexivity. Qed.

Lemma setup_constructs_by_priority_witness :
  let st := boot {[ "ENABLE_IMAGES_GENERATION" := "0" ]} in
  constructed (after (setup VNone st)) = [(Inpainting, VStr "default-model")] /\
  handle (after (setup VNone st)) = Some (MkPipe 0).
Proof.
  intros st.
  destruct (setup_constructs_by_priority VNone st false true true) as [Hcons Hhandle];
    try (vm_compute; reflexivity).
  split; [exact Hcons|].
  apply (Hhandle 1%N). vm_compute. reflexivity.
Defined.

Lemma setup_nothing_enabled_witness :
  let st := boot {[ "ENABLE_IMAGES_GENERATION" := "0"; "ENABLE_IMAGE_EDITS" := "0";
                    "ENABLE_IMAGE_VARIATIONS" := "0" ]} in
  result (setup VNone st) = inl (ValueError no_pipeline_enabled) /\
  constructed (after (setup VNone st)) = [] /\
  handle (after (setup VNone st)) = None.
Proof.
  intros st.
  destruct (setup_nothing_enabled VNone st) as (Hres & Hcons & Hhandle & _);
    try (vm_compute; reflexivity).
  repeat split; assumption.
Defined.



Lemma setup_coerces_witness :
  let malformed := setup VNone (boot {[ "ENABLE_VAE_SLICING" := "true" ]}) in
  let malformed' := setup VNone (boot {[ "MAX_N" := "abc" ]}) in
  let accepted := setup VNone (boot {[ "MAX_N" := "-3"; "ENABLE_VAE_TILING" := "2" ]}) in
  (exists err, result malformed = inl err) /\
  trace (after malformed) = [] /\ handle (after malformed) = None /\
  (exists err, result malformed' = inl err) /\
  max_n (self (after accepted)) = VInt (-3) /\
  enable_vae_tiling (self (after accepted)) = Some true.
Proof.
  intros malformed malformed' accepted.
  destruct (setup_coerces VNone (boot {[ "ENABLE_VAE_SLICING" := "true" ]})) as [_ Hbad].
  destruct (Hbad "ENABLE_VAE_SLICING" 0 "true" (InvalidLiteral "true"))
    as (name & dflt & s & err & _ & _ & _ & Hres & Htrace & _ & Hhandle & _);
    [unfold coerced_variables; rewrite !elem_of_cons; auto 10 | reflexivity | reflexivity |].
  destruct (setup_coerces VNone (boot {[ "MAX_N" := "abc" ]})) as [_ Hbad'].
  destruct (Hbad' "MAX_N" 10 "abc" (InvalidLiteral "abc"))
    as (name' & dflt' & s' & err' & _ & _ & _ & Hres' & _);
    [unfold coerced_variables; rewrite !elem_of_cons; auto 10 | reflexivity | reflexivity |].
  destruct (setup_coerces VNone (boot {[ "MAX_N" := "-3"; "ENABLE_VAE_TILING" := "2" ]}))
    as [Hok _].
  specialize (Hok (-3) 0 0 2 1 1 1 eq_refl eq_refl eq_refl eq_refl eq_refl eq_refl eq_refl).
  apply resolved_eq in Hok. destruct Hok as (_ & Hmax & _ & _ & Htiling & _).
  split; [now exists err|]. split; [exact Htrace|]. split; [exact Hhandle|].
  split; [now exists err'|]. split; assumption.
Defined.

(** With [n = 3] and [max_n = 2] the generation handler calls the pipeline
    twice. *)
Lemma handler_invocations_witness :
  let st := after (setup VNone (boot {[ "MAX_N" := "2" ]})) in
  let request := request_of [("request_type", VStr "generation"); ("n", VInt 3)] in
  result (generate_images request st) = inr tt /\
  invoked st (generate_images request st) = 2%nat.
Proof.
  intros st request.
  destruct (handler_invocations Generation request st 3 2 (MkPipe 1) 2%N)
    as (Hres & _ & _ & _ & _ & Htwo); try reflexivity.
  - intros w. eexists _, _. reflexivity.
  - split; [exact Hres | now apply Htwo].
Defined.

(** C3 as the spec words it fails for a request of zero images: the count
    clamped to [[1, max_n]] is 1, and the handler calls the pipeline not at
    all. *)
Lemma handler_invocations_counterexample :
  let st := ready in
  let request := request_of [("request_type", VStr "generation"); ("n", VInt 0)] in
  let out := handler Generation request st in
  max_n (self st) = VInt 10 /\
  result out = inr tt /\
  invoked st out = 0%nat /\
  Z.of_nat (invoked st out) <> clamp 1 10 0.
Proof. vm_compute. repeat split; discriminate. Qed.


Lemma generate_images_twice_witness :
  let request := request_of [("request_type", VStr "generation"); ("n", VInt 3)] in
  let first := generate_images request ready in
  let second := generate_images request (after first) in
  length (yielded first) = 3%nat /\ length (yielded second) = 3%nat /\
  yielded first <> yielded second.
Proof.
  intros request first second.
  destruct (generate_images_twice request ready (after first) 1)
    as (_ & Hsame & Hlen & _).
  - reflexivity.
  - intros w. eexists _, _. reflexivity.
  - intros p w. eexists _, _. reflexivity.
  - intros p w w' images [= _ <-]. reflexivity.
  - destruct (Hlen 3 10) as [_ Hthree]; try reflexivity.
    fold first in Hthree, Hsame. fold second in Hsame.
    split; [exact Hthree|]. split; [now rewrite <- Hsame|].
    vm_compute. discriminate.
Defined.

Lemma predict_unknown_or_disabled_witness :
  let st := after (setup VNone (boot {[ "ENABLE_IMAGE_EDITS" := "0" ]})) in
  let request := request_of [("request_type", VStr "edit")] in
  predict request st = Out st [Sentinel "Unknown or disabled request type"] (inr tt).
Proof.
  intros st request.
  apply predict_unknown_or_disabled. intros [| |]; vm_compute; congruence.
Defined.

(** C5 as the spec words it fails: with generation and edits both enabled
    [setup] constructs the text-to-image pipeline, and an "edit" request is
    handed to the edit handler, not answered with the sentinel. *)
Lemma predict_routes_enabled_counterexample :
  let st := ready in
  let request := request_of [("request_type", VStr "edit")] in
  enable_images_generation (self st) = Some true /\
  enable_image_edits (self st) = Some true /\
  constructed st = [(Text2Image, VStr "default-model")] /\
  yielded (predict request st) = [Generator (edit_images request)] /\
  yielded (predict request st) <> [Sentinel "Unknown or disabled request type"].
Proof.
  intros st request.
  assert (Hy : yielded (predict request st) = [Generator (edit_images request)]).
  { rewrite predict_run. unfold st. rewrite ready_self. reflexivity. }
  split; [unfold st; now rewrite ready_self|].
  split; [unfold st; now rewrite ready_self|].
  split; [apply ready_constructed|].
  split; [exact Hy|]. rewrite Hy. discriminate.
Qed.

Lemma predict_routes_enabled_witness :
  let st := ready in
  let request := request_of [("request_type", VStr "edit")] in
  predict request st = Out st [Generator (edit_images request)] (inr tt).
Proof.
  intros st request.
  destruct (predict_routes_enabled Edit request st) as [Hedit _];
    [reflexivity | unfold st; now rewrite ready_self | exact Hedit].
Defined.

(** ** The interpreter of the concrete worlds at work

    [int] reads ASCII digits and those of other scripts, single underscores
    between digits and the white space around the number; the separators
    U+001C to U+001F are no white space to it, and a literal of more than
    4300 digits is refused whatever follows it. *)
Lemma cpython_int_examples :
  int_of_str "5" = inr 5 /\
  int_of_str " -1_0 " = inr (-10) /\
  int_of_str "٥" = inr 5 /\
  int_of_str (String "028" "5") = inl (InvalidLiteral (String "028" "5")) /\
  int_of_str "true" = inl (InvalidLiteral "true") /\
  int_of_str "abc" = inl (InvalidLiteral "abc") /\
  int_of_str "" = inl (InvalidLiteral "") /\
  int_of_str (string_of_list_ascii (repeat "1"%char 4300 ++ ["x"%char])) =
    inl (InvalidLiteral (string_of_list_ascii (repeat "1"%char 4300 ++ ["x"%char]))) /\
  int_of_str (string_of_list_ascii (repeat "1"%char 4301 ++ ["x"%char])) =
    inl (PyInt.exceeds_limit 4301).
Proof. vm_compute. repeat split. Qed.

(** ** The further properties at work *)

Lemma all_defaults_integers : integers (∅ : gmap string string).
Proof.
  unfold integers, coerced_variables.
  repeat (apply Forall_cons; split; [eexists; reflexivity|]).
  apply Forall_nil_2.
Qed.

Lemma predict_before_setup_witness :
  let request := request_of [("request_type", VStr "generation")] in
  predict request (boot ∅) =
    Out (boot ∅) [Sentinel "Unknown or disabled request type"] (inr tt).
Proof. intros request. apply predict_before_setup. reflexivity. Defined.


(** A file that parses, no file, and a file that holds [null]. *)
Lemma setup_presets_witness :
  quality_presets (self (after (setup VNone (start (MkSite true true true))))) =
    Some (Loaded (MkJson 7)) /\
  quality_presets (self (after (setup VNone (start (MkSite false true true))))) =
    Some EmptyDict /\
  quality_presets (self (after (setup VNone open_desk))) = None.
Proof.
  split; [|split].
  - destruct (setup_presets VNone (start (MkSite true true true))) as [_ Hyes];
      [apply all_defaults_integers|].
    apply (Hyes (MkSite true true true) (Some (MkJson 7))); reflexivity.
  - destruct (setup_presets VNone (start (MkSite false true true))) as [Hno _];
      [apply all_defaults_integers|].
    apply Hno. reflexivity.
  - destruct (setup_presets VNone open_desk) as [_ Hyes];
      [apply all_defaults_integers|].
    apply (Hyes Desk None); reflexivity.
Defined.

Lemma setup_presets_unreadable_witness :
  let out := setup VNone (start (MkSite true false true)) in
  result out = inl (LibraryError 4) /\
  trace (after out) = [PathExists "config.json"; JsonLoad "config.json"] /\
  handle (after out) = None.
Proof.
  intros out.
  destruct (setup_presets_unreadable VNone (start (MkSite true false true))
              (MkSite true false true) (LibraryError 4))
    as (Hres & Htrace & _ & Hhandle);
    [apply all_defaults_integers | reflexivity | reflexivity |].
  repeat split; assumption.
Defined.

Lemma setup_trace_witness :
  let st := boot {[ "ENABLE_CPU_OFFLOAD" := "1"; "ENABLE_VAE_TILING" := "1";
                    "ENABLE_IMAGES_GENERATION" := "0" ]} in
  let out := setup VNone st in
  result out = inr tt /\
  trace (after out) =
    [PathExists "config.json"; Printed "Loading model pipeline...";
     FromPretrained Inpainting (VStr "default-model") "bfloat16";
     Enable SequentialCpuOffload (MkPipe 0); Enable VaeTiling (MkPipe 0);
     To (MkPipe 0) "float16"; To (MkPipe 0) "cuda";
     Printed "Model setup complete with:"; Printed "Model: default-model";
     Printed "Max value for n: 10"; Printed "CPU Offload Enabled: True";
     Printed "VAE Slicing Enabled: False"; Printed "VAE Tiling Enabled: True";
     Printed "Images Generation Enabled: False"; Printed "Image Edits Enabled: True";
     Printed "Image Variations Enabled: True"].
Proof.
  intros st out.
  destruct (setup_trace VNone st false true true true false true 1%N (MkPipe 0) (MkPipe 0))
    as (Hres & _ & Htrace); try (vm_compute; reflexivity).
  - intros o w. now eexists.
  - intros w. now eexists.
  - intros w. now eexists _, _.
  - split; [exact Hres|]. unfold out. rewrite Htrace. vm_compute. reflexivity.
Defined.

Lemma setup_model_load_fails_witness :
  let out := setup VNone (start (MkSite false false false)) in
  result out = inl (LibraryError 5) /\ handle (after out) = None /\
  trace (after out) =
    [PathExists "config.json"; Printed "Loading model pipeline...";
     FromPretrained Text2Image (VStr "default-model") "bfloat16"].
Proof.
  intros out.
  destruct (setup_model_load_fails VNone (start (MkSite false false false))
              true true true (MkSite false false false) (LibraryError 5))
    as (Hres & Hhandle & Htrace); try (vm_compute; reflexivity).
  split; [exact Hres|]. split; [exact Hhandle|]. unfold out. rewrite Htrace.
  vm_compute. reflexivity.
Defined.

(** Without a [config.json] the presets are the empty mapping; with one that
    holds [null], [setup] returns and the presets are [None] still. *)
Lemma setup_returns_ready_witness :
  (exists p offload slicing tiling g e v n s,
     self ready =
       MkLitFusion (Some p) (Some EmptyDict) (Some v) (Some e) (Some g)
         (Some tiling) (Some slicing) (Some offload) (VInt n) (VStr s) /\
     g || e || v = true) /\
  result (setup VNone open_desk) = inr tt /\
  (exists p offload slicing tiling g e v n s,
     self (after (setup VNone open_desk)) =
       MkLitFusion (Some p) None (Some v) (Some e) (Some g)
         (Some tiling) (Some slicing) (Some offload) (VInt n) (VStr s)).
Proof.
  split; [|split; [reflexivity|]].
  - destruct (setup_returns_ready VNone (boot ∅))
      as (p & q & offload & slicing & tiling & g & e & v & n & s & Hself & Hany & Hq);
      [reflexivity|].
    vm_compute in Hq. subst q.
    exists p, offload, slicing, tiling, g, e, v, n, s.
    split; [exact Hself | exact Hany].
  - destruct (setup_returns_ready VNone open_desk)
      as (p & q & offload & slicing & tiling & g & e & v & n & s & Hself & _ & Hq);
      [reflexivity|].
    vm_compute in Hq. destruct Hq as (j & Hj & Hq).
    injection Hj as <-. subst q.
    exists p, offload, slicing, tiling, g, e, v, n, s. exact Hself.
Defined.


Lemma handler_calls_capped_witness :
  let request := request_of [("request_type", VStr "variation"); ("n", VInt 25)] in
  exists j p,
    (j <= 10)%nat /\
    invocations (trace (after (handler Variation request ready))) =
      invocations (trace ready) ++ replicate j (p, arguments Variation request).
Proof.
  intros request.
  destruct (handler_calls_capped Variation request ready 25 10) as (j & p & Hj & Hinv & _);
    try reflexivity.
  exists j, p. split; [exact Hj | exact Hinv].
Defined.

Lemma handler_count_not_int_witness :
  let request := request_of [("request_type", VStr "generation"); ("n", VStr "3")] in
  let out := generate_images request ready in
  result out = inl (TypeError "min") /\ yielded out = [] /\ invoked ready out = 0%nat.
Proof.
  intros request out.
  destruct (handler_count_not_int Generation request ready (MkPipe 1) 2%N)
    as (Hres & Hy & Htrace); [discriminate | reflexivity |].
  split; [exact Hres|]. split; [exact Hy|].
  unfold invoked, out. change (generate_images request) with (handler (W:=N) Generation request).
  rewrite Htrace. vm_compute. reflexivity.
Defined.

Lemma handler_count_not_positive_witness :
  let request := request_of [("request_type", VStr "generation"); ("n", VInt (-2))] in
  let out := generate_images request ready in
  result out = inr tt /\ yielded out = [] /\ invoked ready out = 0%nat.
Proof.
  intros request out.
  destruct (handler_count_not_positive Generation request ready (-2) 10 (MkPipe 1) 2%N)
    as (Hres & Hy & Htrace); try reflexivity; [lia|].
  split; [exact Hres|]. split; [exact Hy|].
  unfold invoked, out. change (generate_images request) with (handler (W:=N) Generation request).
  rewrite Htrace. vm_compute. reflexivity.
Defined.

Lemma handler_yield_bound_witness :
  let request := request_of [("request_type", VStr "generation"); ("n", VInt 3)] in
  (length (yielded (generate_images request ready)) <= 3)%nat.
Proof.
  intros request.
  apply (handler_yield_bound Generation request ready 3 10 1); try reflexivity.
  intros p w w' images Hcall. vm_compute in Hcall. injection Hcall as _ <-.
  simpl. lia.
Defined.

(** The presets, the flags and the model name changed under a handler: its
    run is the same. *)
Lemma handler_reads_handle_and_bound_witness :
  let request := request_of [("request_type", VStr "generation"); ("n", VInt 2)] in
  let other :=
    MkState (MkLitFusion (Some (MkPipe 0)) (Some (Loaded (MkJson 1))) None (Some false)
               None None None None (VInt 10) VNone)
      (environ ready) (world ready) [] in
  yielded (generate_images request ready) = yielded (generate_images request other) /\
  result (generate_images request ready) = result (generate_images request other).
Proof.
  intros request other.
  destruct (handler_reads_handle_and_bound Generation request ready other)
    as (Hy & Hr & _); try reflexivity.
  split; [exact Hy | exact Hr].
Defined.

Lemma setup_constructs_from_environment_witness :
  let st := boot {[ "MODEL" := "stabilityai/sdxl-turbo"; "ENABLE_IMAGES_GENERATION" := "0";
                    "ENABLE_IMAGE_EDITS" := "0" ]} in
  constructed (after (setup VNone st)) = [(Image2Image, VStr "stabilityai/sdxl-turbo")].
Proof.
  intros st.
  apply (setup_constructs_from_environment VNone st false false true);
    try reflexivity; [|now left].
  unfold integers, coerced_variables.
  repeat (apply Forall_cons; split; [eexists; vm_compute; reflexivity|]).
  apply Forall_nil_2.
Defined.

Lemma served_within_max_n_witness :
  let st := boot {[ "MAX_N" := "2" ]} in
  let request := request_of [("request_type", VStr "edit"); ("n", VInt 7)] in
  (invoked (after (setup VNone st)) (handler Edit request (after (setup VNone st))) <= 2)%nat.
Proof.
  intros st request.
  destruct (served_within_max_n VNone Edit request st 7 2) as [Hcap _];
    [reflexivity | reflexivity | exact Hcap].
Defined.
